(** * KPI dashboard: the KPI/ROI domain model of [app2.py] and [app3.py]

    A shallow embedding of the two Streamlit dashboards.  Only the data
    kept in [st.session_state] and the arithmetic and branching of the
    page bodies are modelled; widgets, layout and charts are not.

    Conventions of the embedding.
    - Python numbers ([int] and [float] alike) are exact rationals [Q];
      an [int] read from an integer widget is a [Z] injected with
      [inject_Z].  Every Python [/] is the fallible [Py.truediv], which
      raises [ZeroDivisionError] on a zero divisor, so a guard of the
      source is what keeps a model expression from raising.
    - Strings are byte strings.  [str.lower] acts on the ASCII letters;
      bytes of a multi-byte UTF-8 character are left alone and can never
      form the ASCII needle of a substring test.
    - A calendar date is its proleptic Gregorian ordinal
      ([date.toordinal()]); the ['%Y-%m-%d'] text kept by the source is a
      bijective rendering of it.  [(now - date).days] is then a
      subtraction of ordinals.
    - Where a page turns a computed number into a decision or a text
      (the thresholds and messages of View Recommendations), rounding
      matters, and the page is modelled a second time on binary64
      floats ([PyFloat], [App2F], [App3F]): Python's [float] is IEEE
      binary64, and the integer literals of the sample data stand for
      the floats of the same value, on which [/], [*], [-], the
      comparisons and the [.0f] format give what Python gives on the
      integers. *)

From stdpp Require Import gmap strings list sorting.
From Stdlib Require Import QArith Qminmax ZArith Lia Ascii String DecimalString.
From Stdlib Require Floats.

Local Open Scope Z_scope.
Local Open Scope string_scope.

(** ** A small model of the Python that the pages use *)

Module Py.

Inductive exn : Type :=
| ZeroDivisionError
| StopIteration.

Inductive result (A : Type) : Type :=
| Ok (a : A)
| Raise (e : exn).
Arguments Ok {A} a.
Arguments Raise {A} e.

Definition bind {A B} (k : A -> result B) (r : result A) : result B :=
  match r with
  | Ok a => k a
  | Raise e => Raise e
  end.

(** [x < y] on numbers. *)
Definition ltb (x y : Q) : bool := negb (Qle_bool y x).

(** [x / y]: true division. *)
Definition truediv (x y : Q) : result Q :=
  if Qeq_bool y 0 then Raise ZeroDivisionError else Ok (x / y)%Q.

(** [min(a, b)]: the first argument unless the second is smaller. *)
Definition min2 (a b : Q) : Q := if ltb b a then b else a.

(** [max(a, b)]: the first argument unless the second is larger. *)
Definition max2 (a b : Q) : Q := if ltb a b then b else a.

(** [max(xs, default=d)] on integers. *)
Definition max_default (d : Z) (xs : list Z) : Z :=
  match xs with
  | [] => d
  | x :: xs' => fold_left (fun m y => if (m <? y)%Z then y else m) xs' x
  end.

(** Truth value of a string: non-empty. *)
Definition truthy (s : string) : bool :=
  match s with
  | EmptyString => false
  | String _ _ => true
  end.

Definition lower_ascii (c : ascii) : ascii :=
  let n := N_of_ascii c in
  if ((65 <=? n) && (n <=? 90))%N then ascii_of_N (n + 32) else c.

(** [s.lower()] *)
Fixpoint lower (s : string) : string :=
  match s with
  | EmptyString => EmptyString
  | String c s' => String (lower_ascii c) (lower s')
  end.

(** [pat in s] *)
Fixpoint contains (pat s : string) : bool :=
  String.prefix pat s ||
  match s with
  | EmptyString => false
  | String _ s' => contains pat s'
  end.

(** Nearest integer of a non-negative rational, ties to the even one. *)
Definition round_half_even (q : Q) : Z :=
  let n := Qnum q in
  let d := Zpos (Qden q) in
  let fl := n / d in
  let r := n mod d in
  match 2 * r ?= d with
  | Lt => fl
  | Gt => fl + 1
  | Eq => if Z.even fl then fl else fl + 1
  end.

Definition digits (z : Z) : string :=
  NilZero.string_of_uint (N.to_uint (Z.to_N z)).

(** [f"{q:.0f}"] *)
Definition format_0f (q : Q) : string :=
  if ltb q 0 then "-" ++ digits (round_half_even (- q)%Q)
  else digits (round_half_even q).

(** [for x in xs: body], threading the variables the body assigns;
    an exception leaves the loop. *)
Fixpoint for_each {A S} (xs : list A) (body : A -> S -> result S) (s : S)
  : result S :=
  match xs with
  | [] => Ok s
  | x :: xs' =>
      match body x s with
      | Ok s' => for_each xs' body s'
      | Raise e => Raise e
      end
  end.

(** [next(x for x in xs if p(x))] *)
Definition next {A} (p : A -> bool) (xs : list A) : result A :=
  match List.find p xs with
  | Some x => Ok x
  | None => Raise StopIteration
  end.

(** [next((x for x in xs if p(x)), None)] *)
Definition next_or_none {A} (p : A -> bool) (xs : list A) : option A :=
  List.find p xs.

(** [[f(x) for x in xs]] with an element expression that may raise. *)
Fixpoint comprehension {A B} (f : A -> result B) (xs : list A)
  : result (list B) :=
  match xs with
  | [] => Ok []
  | x :: xs' =>
      match f x with
      | Ok y =>
          match comprehension f xs' with
          | Ok ys => Ok (y :: ys)
          | Raise e => Raise e
          end
      | Raise e => Raise e
      end
  end.

(** [sum(xs)] on integers. *)
Definition sum_int (xs : list Z) : Z := fold_left Z.add xs 0%Z.

(** [np.mean(xs)]; of no values it is [nan], here [None]. *)
Definition np_mean (xs : list Q) : option Q :=
  match xs with
  | [] => None
  | _ :: _ =>
      Some (fold_left Qplus xs 0 / inject_Z (Z.of_nat (List.length xs)))%Q
  end.

End Py.

#[global] Instance result_ret : MRet Py.result := @Py.Ok.
#[global] Instance result_bind : MBind Py.result := @Py.bind.

(** ** [app3.py] *)

Module App3.

Record tool : Type := {
  id : Z;
  name : string;
  category : string;
  total_investment : Z;
  implementation_date : Z;
  team_size : Z;
  description : string
}.

Record kpi : Type := {
  kpi_name : string;
  current : Q;
  target : Q;
  unit : string
}.

(** [st.session_state]: the tools, and the KPI lists keyed by tool id. *)
Record session_state : Type := {
  ai_tools : list tool;
  kpi_data : gmap Z (list kpi)
}.

Definition sample_tools : list tool :=
  [ {| id := 1; name := "AI Task Assistant"; category := "Productivity";
       total_investment := 15000; implementation_date := 738900;
       team_size := 45;
       description := "Automates routine tasks and improves team productivity" |};
    {| id := 2; name := "Risk Predictor"; category := "Risk Management";
       total_investment := 25000; implementation_date := 738917;
       team_size := 22;
       description := "Predicts project risks and suggests mitigation strategies" |} ].

Definition sample_kpi_data : gmap Z (list kpi) :=
  <[ 1 := [ {| kpi_name := "Time Saved"; current := 120; target := 150; unit := "hours/month" |};
            {| kpi_name := "Task Completion Rate"; current := 85; target := 90; unit := "%" |};
            {| kpi_name := "User Satisfaction"; current := 4.2; target := 4.5; unit := "rating" |} ] ]>
  (<[ 2 := [ {| kpi_name := "Risk Detection Accuracy"; current := 88; target := 92; unit := "%" |};
             {| kpi_name := "False Positives"; current := 12; target := 10; unit := "cases/month" |};
             {| kpi_name := "Cost Avoidance"; current := 35000; target := 40000; unit := "$/quarter" |} ] ]>
   ∅).

(** The session as the script leaves it before any page body runs:
    an empty tool list is replaced by the sample data. *)
Definition load_sample_data (s : session_state) : session_state :=
  match ai_tools s with
  | [] => {| ai_tools := sample_tools; kpi_data := sample_kpi_data |}
  | _ :: _ => s
  end.

(** [max(1, (datetime.now() - implementation_date).days / 30)] *)
Definition months_in_use (now implementation : Z) : Py.result Q :=
  m ← Py.truediv (inject_Z (now - implementation)) 30;
  mret (Py.max2 1 m).

Definition is_cost_kpi (k : kpi) : bool :=
  Py.contains "cost" (Py.lower (kpi_name k)).

(** The two lines [total_savings = ...; roi = ...] that the Simple ROI
    Calculator and [calculate_roi] share. *)
Definition simple_roi (total_cost monthly_savings months : Q) : Py.result Q :=
  let total_savings := (monthly_savings * months)%Q in
  r ← Py.truediv (total_savings - total_cost)%Q total_cost;
  mret (r * 100)%Q.

(** [calculate_roi(tool)] *)
Definition calculate_roi (s : session_state) (now : Z) (t : tool) : Py.result Q :=
  match kpi_data s !! id t with
  | Some kpis =>
      match Py.next_or_none is_cost_kpi kpis with
      | Some cost_savings_kpi =>
          let monthly_savings := current cost_savings_kpi in
          months ← months_in_use now (implementation_date t);
          simple_roi (inject_Z (total_investment t)) monthly_savings months
      | None => mret 0%Q
      end
  | None => mret 0%Q
  end.

(** [get_performance_percentage(kpis)] *)
Definition add_performance (k : kpi) (total_performance : Q) : Py.result Q :=
  if Py.ltb 0 (target k) then
    r ← Py.truediv (current k) (target k);
    let performance := Py.min2 100 (r * 100)%Q in
    mret (total_performance + performance)%Q
  else mret total_performance.

Definition get_performance_percentage (kpis : list kpi) : Py.result Q :=
  match kpis with
  | [] => mret 0%Q
  | _ :: _ =>
      total_performance ← Py.for_each kpis add_performance 0%Q;
      Py.truediv total_performance (inject_Z (Z.of_nat (List.length kpis)))
  end.

(** The "Progress" metric of View Current KPIs and the "Performance"
    metric of Set Targets: the same expression on a current and a
    target value. *)
Definition progress (cur tgt : Q) : Py.result Q :=
  percentage ← (if Py.ltb 0 tgt
                then r ← Py.truediv cur tgt; mret (r * 100)%Q
                else mret 0%Q);
  mret (Py.min2 100 percentage).

Definition kpi_performance (k : kpi) : Py.result Q :=
  progress (current k) (target k).

(** *** Calculate ROI: the Simple ROI Calculator

    [total_cost] and [monthly_savings] are the two number inputs (the
    first has no [min_value]); the months come from the selected tool. *)
Definition simple_roi_calculator (total_cost monthly_savings : Q) (now : Z)
    (selected_tool : tool) : Py.result Q :=
  months ← months_in_use now (implementation_date selected_tool);
  simple_roi total_cost monthly_savings months.

(** *** Add New AI Tool *)

Module Form.
Record t : Type := {
  tool_name : string;
  category : string;
  total_investment : Z;
  implementation_date : Z;
  team_size : Z;
  description : string;
  kpi1_name : string;
  kpi1_current : Q;
  kpi1_target : Q;
  kpi1_unit : string;
  add_more_kpis : bool;
  (* the rows typed under "Additional KPIs"; their number is the
     value of "Number of additional KPIs" *)
  additional_kpis : list kpi
}.

(** What the widgets allow: both number inputs have a [min_value],
    the count of additional KPIs a [max_value], and the rows only
    exist when the checkbox is ticked. *)
Definition allowed (f : t) : Prop :=
  (0 <= total_investment f)%Z /\ (1 <= team_size f)%Z /\
  (List.length (additional_kpis f) <= 5)%nat /\
  (add_more_kpis f = false -> additional_kpis f = []).

(** The same form with other entries under "Additional KPIs". *)
Definition with_additional (more : bool) (rows : list kpi) (f : t) : t :=
  {| tool_name := tool_name f;
     category := category f;
     total_investment := total_investment f;
     implementation_date := implementation_date f;
     team_size := team_size f;
     description := description f;
     kpi1_name := kpi1_name f;
     kpi1_current := kpi1_current f;
     kpi1_target := kpi1_target f;
     kpi1_unit := kpi1_unit f;
     add_more_kpis := more;
     additional_kpis := rows |}.
End Form.

Inductive outcome : Type :=
| Success (new_id : Z)   (* st.success(...) *)
| Error.                 (* st.error(...) *)

Definition new_id (tools : list tool) : Z :=
  Py.max_default 0 (map id tools) + 1.

(** The body of [if submitted:]. *)
Definition add_tool (f : Form.t) (s : session_state) : session_state * outcome :=
  if Py.truthy (Form.tool_name f) && Py.truthy (Form.category f)
     && (0 <? Form.total_investment f)%Z
  then
    let new_id := new_id (ai_tools s) in
    let new_tool :=
      {| id := new_id;
         name := Form.tool_name f;
         category := Form.category f;
         total_investment := Form.total_investment f;
         implementation_date := Form.implementation_date f;
         team_size := Form.team_size f;
         description := Form.description f |} in
    ({| ai_tools := (ai_tools s ++ [new_tool])%list;
        kpi_data :=
          <[ new_id := [ {| kpi_name := Form.kpi1_name f;
                            current := Form.kpi1_current f;
                            target := Form.kpi1_target f;
                            unit := Form.kpi1_unit f |} ] ]> (kpi_data s) |},
     Success new_id)
  else (s, Error).

(** The required fields as the submit handler tests them. *)
Definition filled_in (f : Form.t) : Prop :=
  Form.tool_name f <> "" /\ Form.category f <> "" /\
  (0 < Form.total_investment f)%Z.

(** The dict and the KPI record the handler builds from the form. *)
Definition tool_of_form (i : Z) (f : Form.t) : tool :=
  {| id := i;
     name := Form.tool_name f;
     category := Form.category f;
     total_investment := Form.total_investment f;
     implementation_date := Form.implementation_date f;
     team_size := Form.team_size f;
     description := Form.description f |}.

Definition first_kpi (f : Form.t) : kpi :=
  {| kpi_name := Form.kpi1_name f;
     current := Form.kpi1_current f;
     target := Form.kpi1_target f;
     unit := Form.kpi1_unit f |}.

(** *** Set Targets *)

Record new_kpi_form : Type := {
  new_kpi_name : string;
  new_kpi_current : Q;
  new_kpi_target : Q;
  new_kpi_unit : string
}.

(** [widgets i] is the state of the three inputs drawn for KPI [i];
    [submit] is the "Add New KPI" form when its button was pressed. *)
Definition set_targets (selected_tool_name : string)
    (widgets : nat -> Q * Q * string) (submit : option new_kpi_form)
    (s : session_state) : Py.result session_state :=
  selected_tool ← Py.next (fun t => String.eqb (name t) selected_tool_name)
                          (ai_tools s);
  let tool_id := id selected_tool in
  match kpi_data s !! tool_id with
  | Some kpis =>
      let kpis :=
        imap (fun i k =>
                let '(new_current, new_target, new_unit) := widgets i in
                {| kpi_name := kpi_name k; current := new_current;
                   target := new_target; unit := new_unit |}) kpis in
      let kpis :=
        match submit with
        | Some n =>
            if Py.truthy (new_kpi_name n)
            then (kpis ++ [ {| kpi_name := new_kpi_name n;
                               current := new_kpi_current n;
                               target := new_kpi_target n;
                               unit := new_kpi_unit n |} ])%list
            else kpis
        | None => kpis
        end in
      mret {| ai_tools := ai_tools s;
              kpi_data := <[ tool_id := kpis ]> (kpi_data s) |}
  | None => mret s
  end.

(** *** View Recommendations *)

Record item : Type := {
  item_tool : string;
  item_kpi : string;
  item_performance : Q;
  item_current : Q;
  item_target : Q
}.

Definition check_kpi (t : tool) (k : kpi) (underperforming_tools : list item)
  : Py.result (list item) :=
  if Py.ltb 0 (target k) then
    r ← Py.truediv (current k) (target k);
    let performance := (r * 100)%Q in
    if Py.ltb performance 80 then
      mret (underperforming_tools ++
            [ {| item_tool := name t; item_kpi := kpi_name k;
                 item_performance := performance;
                 item_current := current k; item_target := target k |} ])%list
    else mret underperforming_tools
  else mret underperforming_tools.

Definition check_tool (s : session_state) (t : tool)
    (underperforming_tools : list item) : Py.result (list item) :=
  match kpi_data s !! id t with
  | Some kpis => Py.for_each kpis (check_kpi t) underperforming_tools
  | None => mret underperforming_tools
  end.

Definition underperforming_tools (s : session_state) : Py.result (list item) :=
  Py.for_each (ai_tools s) (check_tool s) [].

(** The lines written under "Suggestions:" for one item. *)
Definition suggestions (it : item) : list string :=
  if Py.ltb (item_performance it) 50 then
    [ "- Consider training or onboarding support";
      "- Review implementation approach";
      "- Check tool configuration" ]
  else if Py.ltb (item_performance it) 80 then
    [ "- Optimize current usage patterns";
      "- Gather user feedback for improvements";
      "- Consider minor configuration adjustments" ]
  else [].

(** *** Sessions

    What one run of the script can do to the store. *)
Inductive action : Type :=
| SubmitAddTool (f : Form.t)
| SetTargets (selected_tool_name : string) (widgets : nat -> Q * Q * string)
             (submit : option new_kpi_form)
| View.

Definition run (s : session_state) (a : action) : session_state :=
  let s := load_sample_data s in
  match a with
  | SubmitAddTool f => fst (add_tool f s)
  | SetTargets n w sub =>
      match set_targets n w sub s with
      | Py.Ok s' => s'
      | Py.Raise _ => s
      end
  | View => s
  end.

Definition empty_session : session_state :=
  {| ai_tools := []; kpi_data := ∅ |}.

Definition session (actions : list action) : session_state :=
  fold_left run actions empty_session.

Definition positive_investment (s : session_state) : Prop :=
  Forall (fun t => (0 < total_investment t)%Z) (ai_tools s).

(** *** Selecting a tool by name

    [next(tool for tool in ai_tools if tool['name'] == selected_tool_name)],
    as View Current KPIs, Calculate ROI and Set Targets all do. *)
Definition select_tool (selected_tool_name : string) (s : session_state)
  : Py.result tool :=
  Py.next (fun t => String.eqb (name t) selected_tool_name) (ai_tools s).

(** The values the three inputs of KPI [i] are drawn with. *)
Definition default_widgets (kpis : list kpi) (i : nat) : Q * Q * string :=
  match kpis !! i with
  | Some k => (current k, target k, unit k)
  | None => (0%Q, 0%Q, "")
  end.

(** *** Dashboard Home: the three metrics of "At a Glance" *)

Definition total_tools (s : session_state) : nat := List.length (ai_tools s).

(** [None] when the tool list is empty and the metric is not drawn. *)
Definition avg_performance (s : session_state) : Py.result (option Q) :=
  match ai_tools s with
  | [] => mret None
  | _ :: _ =>
      perfs ← Py.comprehension
                (fun t => get_performance_percentage
                            (default [] (kpi_data s !! id t)))
                (ai_tools s);
      mret (Py.np_mean perfs)
  end.

Definition total_investment_sum (s : session_state) : Z :=
  Py.sum_int (map total_investment (ai_tools s)).

(** *** Shape of a session's store *)

(** Every listed tool has KPI records, at least one. *)
Definition kpis_present (s : session_state) : Prop :=
  forall t, In t (ai_tools s) ->
    exists kpis, kpi_data s !! id t = Some kpis /\ kpis <> [].

(** Every KPI list belongs to a listed tool. *)
Definition no_orphans (s : session_state) : Prop :=
  forall i kpis, kpi_data s !! i = Some kpis ->
    exists t, In t (ai_tools s) /\ id t = i.

Definition store_shape (s : session_state) : Prop :=
  kpis_present s /\ no_orphans s.

End App3.

(** ** [app2.py] *)

Module App2.

Record kpi_data : Type := {
  current : Q;
  target : Q;
  unit : string
}.

(** A tool's ["kpis"]: a dict from KPI name to its data.  A Python
    dict keeps insertion order and assigning to a present key keeps
    the key's place, so it is an association list with [dict_set]. *)
Definition dict (V : Type) : Type := list (string * V).

Fixpoint dict_set {V} (k : string) (v : V) (d : dict V) : dict V :=
  match d with
  | [] => [(k, v)]
  | (k', v') :: d' =>
      if String.eqb k' k then (k, v) :: d' else (k', v') :: dict_set k v d'
  end.

Record tool : Type := {
  name : string;
  category : string;
  investment : Z;
  date_implemented : Z;
  team_size : option Z;
  description : option string;
  kpis : dict kpi_data
}.

(** [st.session_state.ai_tools] *)
Definition session_state : Type := list tool.

Definition sample_tools : session_state :=
  [ {| name := "AI Task Assistant"; category := "Productivity";
       investment := 50000; date_implemented := 738900;
       team_size := None; description := None;
       kpis :=
         [ ("Time Saved", {| current := 120; target := 100; unit := "hours/week" |});
           ("Accuracy", {| current := 92; target := 90; unit := "%" |});
           ("User Adoption", {| current := 75; target := 80; unit := "%" |});
           ("Cost Reduction", {| current := 15000; target := 12000; unit := "$/month" |}) ] |};
    {| name := "Risk Predictor"; category := "Risk Management";
       investment := 75000; date_implemented := 738917;
       team_size := None; description := None;
       kpis :=
         [ ("Risk Detection", {| current := 85; target := 80; unit := "%" |});
           ("False Alarms", {| current := 15; target := 20; unit := "%" |});
           ("Time to Detect", {| current := 2; target := 3; unit := "days" |});
           ("Cost Avoided", {| current := 50000; target := 40000; unit := "$/quarter" |}) ] |} ].

(** *** Add New AI Tool *)

Module Form.
Record t : Type := {
  tool_name : string;
  category : string;
  investment : Z;
  implementation_date : Z;
  team_size : Z;
  description : string;
  kpi1_name : string;
  kpi1_current : Q;
  kpi1_target : Q;
  kpi1_unit : string;
  kpi2_name : string;
  kpi2_current : Q;
  kpi2_target : Q;
  kpi2_unit : string
}.

(** What the widgets allow: both number inputs have a [min_value]. *)
Definition allowed (f : t) : Prop :=
  (0 <= investment f)%Z /\ (1 <= team_size f)%Z.
End Form.

Definition kpis_to_add (f : Form.t) : dict kpi_data :=
  let kpis_to_add := [] in
  let kpis_to_add :=
    if Py.truthy (Form.kpi1_name f)
    then dict_set (Form.kpi1_name f)
           {| current := Form.kpi1_current f; target := Form.kpi1_target f;
              unit := Form.kpi1_unit f |} kpis_to_add
    else kpis_to_add in
  if Py.truthy (Form.kpi2_name f)
  then dict_set (Form.kpi2_name f)
         {| current := Form.kpi2_current f; target := Form.kpi2_target f;
            unit := Form.kpi2_unit f |} kpis_to_add
  else kpis_to_add.

(** The form on submission: [if submitted and tool_name:].  The
    boolean tells whether the tool was added. *)
Definition add_tool (f : Form.t) (s : session_state) : session_state * bool :=
  if Py.truthy (Form.tool_name f) then
    let new_tool :=
      {| name := Form.tool_name f;
         category := Form.category f;
         investment := Form.investment f;
         date_implemented := Form.implementation_date f;
         team_size := Some (Form.team_size f);
         description := Some (Form.description f);
         kpis := kpis_to_add f |} in
    ((s ++ [new_tool])%list, true)
  else (s, false).

(** *** Calculate ROI: the Simple ROI Calculator

    The three widgets are integer inputs. *)
Definition simple_roi (investment monthly_savings months_used : Z) : Py.result Q :=
  let total_benefits := (monthly_savings * months_used)%Z in
  if (0 <? investment)%Z then
    r ← Py.truediv (inject_Z (total_benefits - investment)) (inject_Z investment);
    mret (r * 100)%Q
  else mret 0%Q.

(** *** Calculate ROI: Tool Comparison *)

Definition is_benefit_kpi (kpi_name : string) : bool :=
  Py.contains "cost" (Py.lower kpi_name) || Py.contains "saving" (Py.lower kpi_name).

Definition total_benefits_est (t : tool) : Q :=
  fold_left (fun total e =>
               if is_benefit_kpi (fst e) then (total + current (snd e) * 3)%Q
               else total)
            (kpis t) 0%Q.

Definition roi_est (t : tool) : Py.result Q :=
  if (0 <? investment t)%Z then
    r ← Py.truediv (total_benefits_est t - inject_Z (investment t))%Q
                   (inject_Z (investment t));
    mret (r * 100)%Q
  else mret 0%Q.

(** *** View Recommendations *)

Record recommendation : Type := {
  rec_tool : string;
  rec_kpi : string;
  issue : string;
  suggestion : string
}.

(** The unclamped ratio of one KPI.  (This loop on exact rationals
    serves the zero-target case; [App2F] has it on floats.) *)
Definition performance (d : kpi_data) : Py.result Q :=
  if negb (Qeq_bool (target d) 0)
  then r ← Py.truediv (current d) (target d); mret (r * 100)%Q
  else mret 0%Q.

Definition check_kpi (t : tool) (e : string * kpi_data)
    (recommendations : list recommendation) : Py.result (list recommendation) :=
  let '(kpi_name, d) := e in
  performance ← performance d;
  if Py.ltb performance 80 then
    mret (recommendations ++
          [ {| rec_tool := name t; rec_kpi := kpi_name;
               issue := "Underperforming by " ++ Py.format_0f (100 - performance)%Q ++ "%";
               suggestion := "Consider additional training or tool optimization" |} ])%list
  else if Py.ltb 120 performance then
    mret (recommendations ++
          [ {| rec_tool := name t; rec_kpi := kpi_name;
               issue := "Exceeding target by " ++ Py.format_0f (performance - 100)%Q ++ "%";
               suggestion := "Could expand usage to other teams/projects" |} ])%list
  else mret recommendations.

(** The dicts the two branches append, for a ratio [p]. *)
Definition underperforming (t : tool) (kpi_name : string) (p : Q)
  : recommendation :=
  {| rec_tool := name t; rec_kpi := kpi_name;
     issue := "Underperforming by " ++ Py.format_0f (100 - p)%Q ++ "%";
     suggestion := "Consider additional training or tool optimization" |}.

Definition exceeding (t : tool) (kpi_name : string) (p : Q)
  : recommendation :=
  {| rec_tool := name t; rec_kpi := kpi_name;
     issue := "Exceeding target by " ++ Py.format_0f (p - 100)%Q ++ "%";
     suggestion := "Could expand usage to other teams/projects" |}.

Definition check_tool (t : tool) (recommendations : list recommendation)
  : Py.result (list recommendation) :=
  Py.for_each (kpis t) (check_kpi t) recommendations.

Definition recommendations (s : session_state) : Py.result (list recommendation) :=
  Py.for_each s check_tool [].

(** [d[k]] as a lookup that may miss. *)
Fixpoint dict_get {V} (k : string) (d : dict V) : option V :=
  match d with
  | [] => None
  | (k', v) :: d' => if String.eqb k' k then Some v else dict_get k d'
  end.

Definition keys {V} (d : dict V) : list string := map fst d.

(** *** Set Targets *)

Record new_kpi_form : Type := {
  new_kpi_name : string;
  new_kpi_current : Q;
  new_kpi_target : Q;
  new_kpi_unit : string
}.

(** The loop over [selected_tool["kpis"].items()]: each KPI's current and
    target value are overwritten by the state of the two inputs keyed by
    its name. *)
Definition update_values (widgets : string -> Q * Q) (kpis : dict kpi_data)
  : dict kpi_data :=
  map (fun e =>
         let '(new_current, new_target) := widgets (fst e) in
         (fst e, {| current := new_current; target := new_target;
                    unit := unit (snd e) |}))
      kpis.

(** The tool a page works on is the first one of that name, and it is
    changed in place in the list. *)
Fixpoint update_first {A} (p : A -> bool) (f : A -> A) (l : list A) : list A :=
  match l with
  | [] => []
  | x :: l' => if p x then f x :: l' else x :: update_first p f l'
  end.

Definition with_kpis (t : tool) (kpis : dict kpi_data) : tool :=
  {| name := name t; category := category t; investment := investment t;
     date_implemented := date_implemented t; team_size := team_size t;
     description := description t; kpis := kpis |}.

(** [button] tells whether "Add New KPI" was pressed. *)
Definition set_targets (selected_tool_name : string)
    (widgets : string -> Q * Q) (button : bool) (n : new_kpi_form)
    (s : session_state) : Py.result session_state :=
  match s with
  | [] => mret s
  | _ :: _ =>
      if Py.truthy selected_tool_name then
        let is_selected := fun t => String.eqb (name t) selected_tool_name in
        selected_tool ← Py.next is_selected s;
        let kpis := update_values widgets (kpis selected_tool) in
        let kpis :=
          if button && Py.truthy (new_kpi_name n)
          then dict_set (new_kpi_name n)
                 {| current := new_kpi_current n; target := new_kpi_target n;
                    unit := new_kpi_unit n |} kpis
          else kpis in
        mret (update_first is_selected (fun t => with_kpis t kpis) s)
      else mret s
  end.

End App2.

(** ** The metrics as the specification words them *)

Module Spec.

(** [min(100, current/target * 100)] when [target > 0], else [0]. *)
Definition kpi_performance (cur tgt : Q) : Q :=
  if Py.ltb 0 tgt then Qmin 100 (cur / tgt * 100)%Q else 0%Q.

(** The unclamped ratio [current/target*100], [0] if the target is 0. *)
Definition ratio (cur tgt : Q) : Q :=
  if Qeq_bool tgt 0 then 0%Q else (cur / tgt * 100)%Q.

Definition sum (xs : list Q) : Q := fold_right Qplus 0%Q xs.

(** Arithmetic mean; [0] of no values. *)
Definition mean (xs : list Q) : Q :=
  match xs with
  | [] => 0%Q
  | _ :: _ => (sum xs / inject_Z (Z.of_nat (List.length xs)))%Q
  end.

(** [(monthly_savings * months_in_use - total_cost) / total_cost * 100],
    and [0] when [total_cost == 0]. *)
Definition simple_roi (total_cost monthly_savings months : Q) : Q :=
  if Qeq_bool total_cost 0 then 0%Q
  else ((monthly_savings * months - total_cost) / total_cost * 100)%Q.

(** [max(1, days / 30)] *)
Definition months_in_use (days : Z) : Q :=
  Qmax 1 (inject_Z days / 30)%Q.

(** [1 +] the maximum existing identifier, or [1] for no identifiers. *)
Definition next_id (ids : list Z) : Z :=
  match ids with
  | [] => 1
  | x :: xs => 1 + fold_right Z.max x xs
  end.

End Spec.

(** ** Python floats *)

Module PyFloat.

Import Floats.

(** [x / y] on floats: a zero divisor (of either sign) raises. *)
Definition truediv (x y : float) : Py.result float :=
  if PrimFloat.eqb y 0%float then Py.Raise Py.ZeroDivisionError
  else Py.Ok (x / y)%float.

(** The exact value [m * 2^e] of a finite float's magnitude. *)
Definition magnitude (m : positive) (e : Z) : Q :=
  match e with
  | Z0 => Zpos m # 1
  | Zpos p => (Zpos m * Zpos (2 ^ p)) # 1
  | Zneg p => Zpos m # (2 ^ p)
  end.

(** [f"{x:.0f}"]: the nearest integer of the exact value, ties to
    even, after the sign. *)
Definition format_0f (x : float) : string :=
  match Prim2SF x with
  | S754_zero s => if s then "-0" else "0"
  | S754_infinity s => if s then "-inf" else "inf"
  | S754_nan => "nan"
  | S754_finite s m e =>
      (if s then "-" else "") ++ Py.digits (Py.round_half_even (magnitude m e))
  end.

End PyFloat.

(** ** View Recommendations of [app2.py], on floats *)

Module App2F.

Import Floats.

Record kpi_data : Type := {
  current : float;
  target : float;
  unit : string
}.

Record tool : Type := {
  name : string;
  category : string;
  investment : Z;
  date_implemented : Z;
  team_size : option Z;
  description : option string;
  kpis : App2.dict kpi_data
}.

Definition session_state : Type := list tool.

Definition sample_tools : session_state :=
  [ {| name := "AI Task Assistant"; category := "Productivity";
       investment := 50000; date_implemented := 738900;
       team_size := None; description := None;
       kpis :=
         [ ("Time Saved", {| current := 120; target := 100; unit := "hours/week" |});
           ("Accuracy", {| current := 92; target := 90; unit := "%" |});
           ("User Adoption", {| current := 75; target := 80; unit := "%" |});
           ("Cost Reduction", {| current := 15000; target := 12000; unit := "$/month" |}) ] |};
    {| name := "Risk Predictor"; category := "Risk Management";
       investment := 75000; date_implemented := 738917;
       team_size := None; description := None;
       kpis :=
         [ ("Risk Detection", {| current := 85; target := 80; unit := "%" |});
           ("False Alarms", {| current := 15; target := 20; unit := "%" |});
           ("Time to Detect", {| current := 2; target := 3; unit := "days" |});
           ("Cost Avoided", {| current := 50000; target := 40000; unit := "$/quarter" |}) ] |} ].

(** The unclamped ratio of one KPI, as line 349 computes it. *)
Definition performance (d : kpi_data) : Py.result float :=
  if negb (PrimFloat.eqb (target d) 0%float)
  then r ← PyFloat.truediv (current d) (target d); mret (r * 100)%float
  else mret 0%float.

(** The value of [performance]: the guard keeps the division from
    raising. *)
Definition ratio (d : kpi_data) : float :=
  if PrimFloat.eqb (target d) 0%float then 0%float
  else (current d / target d * 100)%float.

Definition check_kpi (t : tool) (e : string * kpi_data)
    (recommendations : list App2.recommendation)
  : Py.result (list App2.recommendation) :=
  let '(kpi_name, d) := e in
  performance ← performance d;
  if PrimFloat.ltb performance 80%float then
    mret (recommendations ++
          [ {| App2.rec_tool := name t; App2.rec_kpi := kpi_name;
               App2.issue :=
                 "Underperforming by "
                 ++ PyFloat.format_0f (100 - performance)%float ++ "%";
               App2.suggestion :=
                 "Consider additional training or tool optimization" |} ])%list
  else if PrimFloat.ltb 120%float performance then
    mret (recommendations ++
          [ {| App2.rec_tool := name t; App2.rec_kpi := kpi_name;
               App2.issue :=
                 "Exceeding target by "
                 ++ PyFloat.format_0f (performance - 100)%float ++ "%";
               App2.suggestion :=
                 "Could expand usage to other teams/projects" |} ])%list
  else mret recommendations.

Definition check_tool (t : tool) (recommendations : list App2.recommendation)
  : Py.result (list App2.recommendation) :=
  Py.for_each (kpis t) (check_kpi t) recommendations.

Definition recommendations (s : session_state)
  : Py.result (list App2.recommendation) :=
  Py.for_each s check_tool [].

(** What the page shows: [recommendations[:3]]. *)
Definition shown (recs : list App2.recommendation) : list App2.recommendation :=
  take 3 recs.

(** What the loop appends for one KPI. *)
Definition recommended (t : tool) (e : string * kpi_data)
  : list App2.recommendation :=
  let p := ratio (snd e) in
  if PrimFloat.ltb p 80%float then
    [ {| App2.rec_tool := name t; App2.rec_kpi := fst e;
         App2.issue :=
           "Underperforming by " ++ PyFloat.format_0f (100 - p)%float ++ "%";
         App2.suggestion :=
           "Consider additional training or tool optimization" |} ]
  else if PrimFloat.ltb 120%float p then
    [ {| App2.rec_tool := name t; App2.rec_kpi := fst e;
         App2.issue :=
           "Exceeding target by " ++ PyFloat.format_0f (p - 100)%float ++ "%";
         App2.suggestion := "Could expand usage to other teams/projects" |} ]
  else [].

End App2F.

(** ** View Recommendations of [app3.py], on floats *)

Module App3F.

Import Floats.

Record kpi : Type := {
  kpi_name : string;
  current : float;
  target : float;
  unit : string
}.

Record session_state : Type := {
  ai_tools : list App3.tool;
  kpi_data : gmap Z (list kpi)
}.

Definition sample_kpi_data : gmap Z (list kpi) :=
  <[ 1%Z := [ {| kpi_name := "Time Saved"; current := 120; target := 150; unit := "hours/month" |};
              {| kpi_name := "Task Completion Rate"; current := 85; target := 90; unit := "%" |};
              {| kpi_name := "User Satisfaction"; current := 0x1.0cccccccccccdp+2; target := 4.5; unit := "rating" |} ] ]>
  (<[ 2%Z := [ {| kpi_name := "Risk Detection Accuracy"; current := 88; target := 92; unit := "%" |};
               {| kpi_name := "False Positives"; current := 12; target := 10; unit := "cases/month" |};
               {| kpi_name := "Cost Avoidance"; current := 35000; target := 40000; unit := "$/quarter" |} ] ]>
   ∅).

Record item : Type := {
  item_tool : string;
  item_kpi : string;
  item_performance : float;
  item_current : float;
  item_target : float
}.

Definition check_kpi (t : App3.tool) (k : kpi) (underperforming_tools : list item)
  : Py.result (list item) :=
  if PrimFloat.ltb 0%float (target k) then
    r ← PyFloat.truediv (current k) (target k);
    let performance := (r * 100)%float in
    if PrimFloat.ltb performance 80%float then
      mret (underperforming_tools ++
            [ {| item_tool := App3.name t; item_kpi := kpi_name k;
                 item_performance := performance;
                 item_current := current k; item_target := target k |} ])%list
    else mret underperforming_tools
  else mret underperforming_tools.

Definition check_tool (s : session_state) (t : App3.tool)
    (underperforming_tools : list item) : Py.result (list item) :=
  match kpi_data s !! App3.id t with
  | Some kpis => Py.for_each kpis (check_kpi t) underperforming_tools
  | None => mret underperforming_tools
  end.

Definition underperforming_tools (s : session_state) : Py.result (list item) :=
  Py.for_each (ai_tools s) (check_tool s) [].

(** The lines written under "Suggestions:" for one item. *)
Definition suggestions (it : item) : list string :=
  if PrimFloat.ltb (item_performance it) 50%float then
    [ "- Consider training or onboarding support";
      "- Review implementation approach";
      "- Check tool configuration" ]
  else if PrimFloat.ltb (item_performance it) 80%float then
    [ "- Optimize current usage patterns";
      "- Gather user feedback for improvements";
      "- Consider minor configuration adjustments" ]
  else [].


(** What the loop appends for one KPI, and for one tool. *)
Definition listed (t : App3.tool) (k : kpi) : list item :=
  let p := (current k / target k * 100)%float in
  if PrimFloat.ltb 0%float (target k) && PrimFloat.ltb p 80%float
  then [ {| item_tool := App3.name t; item_kpi := kpi_name k;
            item_performance := p;
            item_current := current k; item_target := target k |} ]
  else [].

Definition listed_of_tool (s : session_state) (t : App3.tool) : list item :=
  match kpi_data s !! App3.id t with
  | Some kpis => flat_map (listed t) kpis
  | None => []
  end.

End App3F.

(** * Properties *)

Local Open Scope list_scope.
Local Open Scope Z_scope.

(** ** The Python model *)

Lemma ltb_lt (x y : Q) : Py.ltb x y = true <-> (x < y)%Q.
Proof.
  unfold Py.ltb. rewrite negb_true_iff. split.
  - intros H. apply Qnot_le_lt. intros Hle.
    apply Qle_bool_iff in Hle. congruence.
  - intros H. destruct (Qle_bool y x) eqn:E; [|reflexivity].
    apply Qle_bool_iff in E. exfalso. exact (Qlt_not_le _ _ H E).
Qed.

Lemma ltb_ge (x y : Q) : Py.ltb x y = false <-> (y <= x)%Q.
Proof.
  unfold Py.ltb. rewrite negb_false_iff. apply Qle_bool_iff.
Qed.

Lemma truediv_ok (x y : Q) : ~ (y == 0)%Q -> Py.truediv x y = Py.Ok (x / y)%Q.
Proof.
  intros H. unfold Py.truediv.
  destruct (Qeq_bool y 0) eqn:E; [|reflexivity].
  apply Qeq_bool_iff in E. contradiction.
Qed.

Lemma truediv_zero (x y : Q) : (y == 0)%Q -> Py.truediv x y = Py.Raise Py.ZeroDivisionError.
Proof.
  intros H. unfold Py.truediv. apply Qeq_bool_iff in H. now rewrite H.
Qed.

Lemma truediv_pos (x y : Q) : (0 < y)%Q -> Py.truediv x y = Py.Ok (x / y)%Q.
Proof.
  intros H. apply truediv_ok. intros E. rewrite E in H.
  exact (Qlt_irrefl _ H).
Qed.

Lemma inject_Z_nonzero (z : Z) : z <> 0 -> ~ (inject_Z z == 0)%Q.
Proof. unfold Qeq. simpl. lia. Qed.

Lemma min2_Qmin (a b : Q) : (Py.min2 a b == Qmin a b)%Q.
Proof.
  unfold Py.min2. destruct (Py.ltb b a) eqn:E.
  - apply ltb_lt in E. symmetry. apply Q.min_r. now apply Qlt_le_weak.
  - apply ltb_ge in E. symmetry. now apply Q.min_l.
Qed.

Lemma max2_Qmax (a b : Q) : (Py.max2 a b == Qmax a b)%Q.
Proof.
  unfold Py.max2. destruct (Py.ltb a b) eqn:E.
  - apply ltb_lt in E. symmetry. apply Q.max_r. now apply Qlt_le_weak.
  - apply ltb_ge in E. symmetry. now apply Q.max_l.
Qed.

Lemma min2_le_l (a b : Q) : (Py.min2 a b <= a)%Q.
Proof. rewrite min2_Qmin. apply Q.le_min_l. Qed.


(** ** Per-KPI performance ([app3.py]) *)

Lemma progress_pos (cur tgt : Q) :
  (0 < tgt)%Q ->
  App3.progress cur tgt = Py.Ok (Py.min2 100 (cur / tgt * 100)%Q).
Proof.
  intros H. unfold App3.progress.
  rewrite (proj2 (ltb_lt 0 tgt) H), (truediv_pos _ _ H). reflexivity.
Qed.

Lemma progress_nonpos (cur tgt : Q) :
  ~ (0 < tgt)%Q -> App3.progress cur tgt = Py.Ok 0%Q.
Proof.
  intros H. unfold App3.progress.
  destruct (Py.ltb 0 tgt) eqn:E; [apply ltb_lt in E; contradiction|].
  reflexivity.
Qed.

Lemma progress_spec (cur tgt : Q) :
  exists p, App3.progress cur tgt = Py.Ok p /\
            (p == Spec.kpi_performance cur tgt)%Q /\ (p <= 100)%Q.
Proof.
  unfold Spec.kpi_performance. destruct (Py.ltb 0 tgt) eqn:E.
  - apply ltb_lt in E. eexists. split; [apply progress_pos, E|].
    split; [apply min2_Qmin | apply min2_le_l].
  - exists 0%Q. split; [|split; [reflexivity | discriminate]].
    apply progress_nonpos. intros H. apply ltb_lt in H. congruence.
Qed.

(** C6: [kpi_performance] is [min(100, current/target*100)] when the
    target is positive and [0] otherwise; it never raises and never
    exceeds 100.  The same expression is the "Performance" metric of
    Set Targets ([App3.progress]). *)
Theorem kpi_performance_clamped (k : App3.kpi) :
  ((0 < App3.target k)%Q ->
     App3.kpi_performance k =
     Py.Ok (Py.min2 100 (App3.current k / App3.target k * 100)%Q)) /\
  (~ (0 < App3.target k)%Q -> App3.kpi_performance k = Py.Ok 0%Q) /\
  (exists p, App3.kpi_performance k = Py.Ok p /\
             (p == Spec.kpi_performance (App3.current k) (App3.target k))%Q /\
             (p <= 100)%Q).
Proof.
  unfold App3.kpi_performance. split; [|split].
  - apply progress_pos.
  - apply progress_nonpos.
  - apply progress_spec.
Qed.

Lemma kpi_performance_clamped_witness :
  let k := {| App3.kpi_name := "Adoption"; App3.current := 40;
              App3.target := 100; App3.unit := "%" |} in
  (0 < App3.target k)%Q /\
  App3.kpi_performance k =
  Py.Ok (Py.min2 100 (App3.current k / App3.target k * 100)%Q).
Proof.
  intros k. split; [reflexivity|].
  apply (proj1 (kpi_performance_clamped k)). reflexivity.
Defined.

(** ** Per-tool average performance ([app3.py]) *)

(** The value [add_performance] adds for one KPI. *)
Lemma add_performance_ok (k : App3.kpi) (acc : Q) :
  exists p, App3.kpi_performance k = Py.Ok p /\
            App3.add_performance k acc = Py.Ok (if Py.ltb 0 (App3.target k)
                                                then acc + p else acc)%Q.
Proof.
  unfold App3.add_performance, App3.kpi_performance.
  destruct (Py.ltb 0 (App3.target k)) eqn:E.
  - apply ltb_lt in E. rewrite (progress_pos _ _ E), (truediv_pos _ _ E).
    eexists. split; reflexivity.
  - exists 0%Q. split; [|reflexivity].
    apply progress_nonpos. intros H. apply ltb_lt in H. congruence.
Qed.

Lemma total_performance_sum (kpis : list App3.kpi) :
  exists ps, Forall2 (fun k p => App3.kpi_performance k = Py.Ok p) kpis ps /\
    forall acc, exists r,
      Py.for_each kpis App3.add_performance acc = Py.Ok r /\
      (r == acc + Spec.sum ps)%Q.
Proof.
  induction kpis as [|k kpis (ps & Hps & IH)].
  - exists []. split; [constructor|]. intros acc. exists acc.
    split; [reflexivity|]. simpl. ring.
  - destruct (add_performance_ok k 0) as (p & Hp & _).
    exists (p :: ps). split; [now constructor|]. intros acc.
    destruct (add_performance_ok k acc) as (p' & Hp' & Hadd).
    assert (p' = p) by congruence. subst p'.
    simpl. rewrite Hadd.
    destruct (Py.ltb 0 (App3.target k)) eqn:E.
    + destruct (IH (acc + p)%Q) as (r & Hr & Hr'). exists r.
      split; [exact Hr|]. rewrite Hr'. ring.
    + destruct (IH acc) as (r & Hr & Hr'). exists r.
      split; [exact Hr|]. rewrite Hr'.
      assert (Hz : p = 0%Q).
      { unfold App3.kpi_performance in Hp. rewrite progress_nonpos in Hp.
        - congruence.
        - intros H. apply ltb_lt in H. congruence. }
      subst p. ring.
Qed.

(** C7: [get_performance_percentage] never raises and returns the
    arithmetic mean of [kpi_performance] over all the KPI records, a
    KPI without a positive target adding 0 and still counting in the
    denominator; of no KPI records it returns 0. *)
Theorem get_performance_percentage_mean (kpis : list App3.kpi) :
  exists ps r,
    Forall2 (fun k p => App3.kpi_performance k = Py.Ok p) kpis ps /\
    App3.get_performance_percentage kpis = Py.Ok r /\
    (r == Spec.mean ps)%Q /\
    App3.get_performance_percentage [] = Py.Ok 0%Q.
Proof.
  destruct (total_performance_sum kpis) as (ps & Hps & Hsum).
  destruct kpis as [|k kpis].
  - inversion Hps; subst. exists [], 0%Q.
    split; [constructor|]. split; [reflexivity|]. split; reflexivity.
  - destruct (Hsum 0%Q) as (r & Hr & Hr').
    assert (Hlen : List.length ps = S (List.length kpis)).
    { apply Forall2_length in Hps. simpl in Hps. lia. }
    destruct ps as [|p ps]; [discriminate|].
    exists (p :: ps), (r / inject_Z (Z.of_nat (S (List.length kpis))))%Q.
    split; [exact Hps|]. split; [|split; [|reflexivity]].
    + unfold App3.get_performance_percentage. rewrite Hr.
      simpl List.length. apply truediv_pos.
      rewrite <- (Zlt_Qlt 0). lia.
    + unfold Spec.mean. rewrite Hlen, Hr'.
      apply Qdiv_comp; [ring | reflexivity].
Qed.

(** ** Simple ROI *)

Lemma app2_simple_roi_zero (monthly_savings months_used : Z) :
  App2.simple_roi 0 monthly_savings months_used = Py.Ok 0%Q.
Proof. reflexivity. Qed.

Lemma app2_simple_roi_pos (investment monthly_savings months_used : Z) :
  (0 < investment)%Z ->
  App2.simple_roi investment monthly_savings months_used =
  Py.Ok (inject_Z (monthly_savings * months_used - investment)
         / inject_Z investment * 100)%Q.
Proof.
  intros H. unfold App2.simple_roi.
  rewrite (proj2 (Z.ltb_lt 0 investment) H), truediv_pos; [reflexivity|].
  now rewrite <- (Zlt_Qlt 0).
Qed.

Lemma app3_simple_roi_nonzero (total_cost monthly_savings months : Q) :
  ~ (total_cost == 0)%Q ->
  App3.simple_roi total_cost monthly_savings months =
  Py.Ok ((monthly_savings * months - total_cost) / total_cost * 100)%Q.
Proof.
  intros H. unfold App3.simple_roi. now rewrite truediv_ok.
Qed.

Lemma app3_simple_roi_zero (total_cost monthly_savings months : Q) :
  (total_cost == 0)%Q ->
  App3.simple_roi total_cost monthly_savings months =
  Py.Raise Py.ZeroDivisionError.
Proof.
  intros H. unfold App3.simple_roi. now rewrite truediv_zero.
Qed.

Lemma months_in_use_ok (now implementation : Z) :
  App3.months_in_use now implementation =
  Py.Ok (Py.max2 1 (inject_Z (now - implementation) / 30)%Q).
Proof. reflexivity. Qed.

(** C1: with a total cost of 0 the Simple ROI Calculator of [app3.py]
    divides by it and raises [ZeroDivisionError], where the claim (and
    the guarded calculator of [app2.py]) gives 0. *)
Theorem app3_simple_roi_zero_cost_raises :
  App3.simple_roi 0 5000 3 = Py.Raise Py.ZeroDivisionError /\
  (exists t, In t App3.sample_tools /\
     App3.simple_roi_calculator 0 5000 (App3.implementation_date t + 90) t =
     Py.Raise Py.ZeroDivisionError) /\
  App2.simple_roi 0 5000 3 = Py.Ok 0%Q.
Proof.
  split; [reflexivity|]. split; [|reflexivity].
  eexists. split; [left; reflexivity|]. reflexivity.
Qed.

(** ** Sessions of [app3.py] *)

Lemma load_sample_data_positive (s : App3.session_state) :
  App3.positive_investment s -> App3.positive_investment (App3.load_sample_data s).
Proof.
  unfold App3.positive_investment, App3.load_sample_data. intros H.
  destruct (App3.ai_tools s) eqn:E; [|now rewrite E].
  simpl. repeat constructor.
Qed.

Lemma add_tool_positive (f : App3.Form.t) (s : App3.session_state) :
  App3.positive_investment s -> App3.positive_investment (fst (App3.add_tool f s)).
Proof.
  unfold App3.positive_investment, App3.add_tool. intros H.
  destruct (Py.truthy (App3.Form.tool_name f)); simpl; [|exact H].
  destruct (Py.truthy (App3.Form.category f)); simpl; [|exact H].
  destruct (0 <? App3.Form.total_investment f)%Z eqn:E; simpl; [|exact H].
  apply Forall_app. split; [exact H|].
  constructor; [|constructor]. simpl. now apply Z.ltb_lt.
Qed.

Lemma set_targets_tools (n : string) (w : nat -> Q * Q * string)
    (sub : option App3.new_kpi_form) (s s' : App3.session_state) :
  App3.set_targets n w sub s = Py.Ok s' -> App3.ai_tools s' = App3.ai_tools s.
Proof.
  unfold App3.set_targets. destruct (Py.next _ _) as [t|e]; [|discriminate].
  simpl. destruct (App3.kpi_data s !! App3.id t); intros [= <-]; reflexivity.
Qed.

Lemma run_positive (s : App3.session_state) (a : App3.action) :
  App3.positive_investment s -> App3.positive_investment (App3.run s a).
Proof.
  intros H. apply load_sample_data_positive in H.
  unfold App3.run. destruct a as [f|n w sub|].
  - now apply add_tool_positive.
  - destruct (App3.set_targets n w sub _) as [s'|e] eqn:E; [|exact H].
    unfold App3.positive_investment. now rewrite (set_targets_tools _ _ _ _ _ E).
  - exact H.
Qed.

Lemma fold_run_positive (actions : list App3.action) (s : App3.session_state) :
  App3.positive_investment s -> App3.positive_investment (fold_left App3.run actions s).
Proof.
  revert s. induction actions as [|a actions IH]; intros s H; [exact H|].
  simpl. apply IH, run_positive, H.
Qed.

(** Every tool a page can see has a positive investment. *)
Lemma session_positive (actions : list App3.action) :
  App3.positive_investment (App3.load_sample_data (App3.session actions)).
Proof.
  apply load_sample_data_positive, fold_run_positive. constructor.
Qed.

(** ** Estimated ROI ([app3.py]) *)

Lemma find_first {A} (p : A -> bool) (pre : list A) (k : A) (post : list A) :
  Forall (fun x => p x = false) pre -> p k = true ->
  List.find p (pre ++ k :: post) = Some k.
Proof.
  intros Hpre Hk. induction Hpre as [|x pre Hx _ IH]; simpl.
  - now rewrite Hk.
  - now rewrite Hx.
Qed.

Lemma find_none {A} (p : A -> bool) (l : list A) :
  Forall (fun x => p x = false) l -> List.find p l = None.
Proof.
  intros H. induction H as [|x l Hx _ IH]; simpl; [reflexivity|].
  now rewrite Hx.
Qed.

Lemma calculate_roi_cost_kpi (s : App3.session_state) (now : Z) (t : App3.tool)
    (pre : list App3.kpi) (k : App3.kpi) (post : list App3.kpi) :
  App3.kpi_data s !! App3.id t = Some (pre ++ k :: post) ->
  Forall (fun k' => App3.is_cost_kpi k' = false) pre ->
  App3.is_cost_kpi k = true ->
  App3.calculate_roi s now t =
  App3.simple_roi (inject_Z (App3.total_investment t)) (App3.current k)
    (Py.max2 1 (inject_Z (now - App3.implementation_date t) / 30)%Q).
Proof.
  intros Hk Hpre Hc. unfold App3.calculate_roi, Py.next_or_none.
  rewrite Hk, (find_first _ _ _ _ Hpre Hc). reflexivity.
Qed.

Lemma simple_roi_spec (total_cost monthly_savings m m' : Q) :
  ~ (total_cost == 0)%Q -> (m == m')%Q ->
  exists r, App3.simple_roi total_cost monthly_savings m = Py.Ok r /\
    (r == Spec.simple_roi total_cost monthly_savings m')%Q /\
    (r == (monthly_savings * m' - total_cost) / total_cost * 100)%Q.
Proof.
  intros Hc Hm. rewrite (app3_simple_roi_nonzero _ _ _ Hc).
  eexists. split; [reflexivity|].
  assert (E : ((monthly_savings * m - total_cost) / total_cost * 100 ==
               (monthly_savings * m' - total_cost) / total_cost * 100)%Q)
    by now rewrite Hm.
  split; [|exact E]. unfold Spec.simple_roi.
  destruct (Qeq_bool total_cost 0) eqn:Ez; [|exact E].
  apply Qeq_bool_iff in Ez. contradiction.
Qed.

(** C2: for every tool of a session, [calculate_roi] takes the first
    KPI record, in append order, whose lower-cased name contains "cost"
    and returns the simple ROI of the tool's investment, that KPI's
    current value and [max(1, days/30)] months; without such a KPI (or
    without KPI records) it returns 0.  With an investment of 20000, a
    single KPI "Cost Savings" at 10000 and 60 days in use, the months
    are 2 and the ROI is 0. *)
Theorem calculate_roi_first_cost_kpi
    (actions : list App3.action) (now : Z) (t : App3.tool) :
  let s := App3.load_sample_data (App3.session actions) in
  In t (App3.ai_tools s) ->
  (forall pre k post,
      App3.kpi_data s !! App3.id t = Some (pre ++ k :: post) ->
      Forall (fun k' => App3.is_cost_kpi k' = false) pre ->
      App3.is_cost_kpi k = true ->
      exists r,
        App3.calculate_roi s now t = Py.Ok r /\
        (r == Spec.simple_roi (inject_Z (App3.total_investment t))
                (App3.current k)
                (Spec.months_in_use (now - App3.implementation_date t)))%Q /\
        (r == (App3.current k
               * Spec.months_in_use (now - App3.implementation_date t)
               - inject_Z (App3.total_investment t))
              / inject_Z (App3.total_investment t) * 100)%Q) /\
  (forall kpis,
      App3.kpi_data s !! App3.id t = Some kpis ->
      Forall (fun k' => App3.is_cost_kpi k' = false) kpis ->
      App3.calculate_roi s now t = Py.Ok 0%Q) /\
  (App3.kpi_data s !! App3.id t = None ->
   App3.calculate_roi s now t = Py.Ok 0%Q) /\
  (forall k,
      App3.kpi_data s !! App3.id t = Some [k] ->
      App3.kpi_name k = "Cost Savings" -> App3.current k = 10000%Q ->
      App3.total_investment t = 20000 ->
      now - App3.implementation_date t = 60 ->
      exists m r,
        App3.months_in_use now (App3.implementation_date t) = Py.Ok m /\
        (m == 2)%Q /\
        App3.calculate_roi s now t = Py.Ok r /\ (r == 0)%Q).
Proof.
  intros s Hin.
  assert (Hpos : (0 < App3.total_investment t)%Z).
  { pose proof (session_positive actions) as H.
    unfold App3.positive_investment in H. rewrite Forall_forall in H.
    apply H. apply list_elem_of_In. exact Hin. }
  assert (Hnz : ~ (inject_Z (App3.total_investment t) == 0)%Q).
  { apply inject_Z_nonzero. lia. }
  split; [|split; [|split]].
  - intros pre k post Hk Hpre Hc.
    rewrite (calculate_roi_cost_kpi _ _ _ _ _ _ Hk Hpre Hc).
    apply simple_roi_spec; [exact Hnz | apply max2_Qmax].
  - intros kpis Hk Hnone. unfold App3.calculate_roi, Py.next_or_none.
    now rewrite Hk, (find_none _ _ Hnone).
  - intros Hk. unfold App3.calculate_roi. now rewrite Hk.
  - intros k Hk Hname Hcur Hinv Hdays.
    exists (Py.max2 1 (inject_Z 60 / 30)%Q). eexists.
    rewrite months_in_use_ok, Hdays. split; [reflexivity|].
    split; [reflexivity|].
    rewrite (calculate_roi_cost_kpi s now t [] k [] Hk).
    + rewrite Hinv, Hcur, Hdays. split; reflexivity.
    + constructor.
    + unfold App3.is_cost_kpi. now rewrite Hname.
Qed.

Lemma calculate_roi_first_cost_kpi_witness :
  let t := {| App3.id := 2; App3.name := "Risk Predictor";
              App3.category := "Risk Management";
              App3.total_investment := 25000;
              App3.implementation_date := 738917; App3.team_size := 22;
              App3.description :=
                "Predicts project risks and suggests mitigation strategies" |} in
  let s := App3.load_sample_data (App3.session []) in
  In t (App3.ai_tools s) /\
  exists r, App3.calculate_roi s (738917 + 60) t = Py.Ok r /\
            (r == (35000 * 2 - 25000) / 25000 * 100)%Q.
Proof.
  intros t s.
  assert (Hin : In t (App3.ai_tools s)) by (right; left; reflexivity).
  split; [exact Hin|].
  destruct (calculate_roi_first_cost_kpi [] (738917 + 60) t Hin) as (H & _).
  destruct (H [ {| App3.kpi_name := "Risk Detection Accuracy"; App3.current := 88;
                   App3.target := 92; App3.unit := "%" |};
                {| App3.kpi_name := "False Positives"; App3.current := 12;
                   App3.target := 10; App3.unit := "cases/month" |} ]
              {| App3.kpi_name := "Cost Avoidance"; App3.current := 35000;
                 App3.target := 40000; App3.unit := "$/quarter" |} [])
    as (r & Hr & _ & Hs).
  - reflexivity.
  - repeat constructor.
  - reflexivity.
  - exists r. split; [exact Hr|]. rewrite Hs. reflexivity.
Defined.

(** The Tool Comparison of [app2.py] estimates differently: it adds up
    three months of every KPI whose name contains "cost" or "saving". *)
Lemma app2_roi_est_scenario (t : App2.tool) (d : App2.kpi_data) :
  App2.kpis t = [("Cost Savings", d)] -> App2.current d = 10000%Q ->
  App2.investment t = 20000 ->
  exists r, App2.roi_est t = Py.Ok r /\ (r == 50)%Q.
Proof.
  intros Hk Hc Hi. unfold App2.roi_est, App2.total_benefits_est.
  rewrite Hk, Hi. simpl. rewrite Hc. eexists. split; reflexivity.
Qed.

(** C2 as stated fails on the Tool Comparison of [app2.py]: with an
    investment of 20000 and the single KPI "Cost Savings" at 10000 it
    shows 50, not 0 (it takes three months, whatever the date), and for
    a tool without a cost KPI it shows -100, not 0. *)
Lemma app2_estimate_is_not_first_cost_kpi :
  let d := {| App2.current := 10000; App2.target := 12000;
              App2.unit := "$/month" |} in
  let tool kpi_name :=
    {| App2.name := "Planner"; App2.category := "Other";
       App2.investment := 20000; App2.date_implemented := 739000;
       App2.team_size := Some 1; App2.description := Some "";
       App2.kpis := [(kpi_name, d)] |} in
  (exists r, App2.roi_est (tool "Cost Savings") = Py.Ok r /\
             (r == 50)%Q /\ ~ (r == 0)%Q) /\
  (exists r, App2.roi_est (tool "Accuracy") = Py.Ok r /\
             (r == - (100))%Q /\ ~ (r == 0)%Q).
Proof.
  intros d tool. split; eexists; (split; [reflexivity|]);
    (split; [reflexivity | discriminate]).
Qed.

(** ** Adding a tool *)

Lemma max_step (m y : Z) : (if m <? y then y else m) = Z.max m y.
Proof. destruct (Z.ltb_spec m y); lia. Qed.

Lemma fold_right_max_shift (xs : list Z) (x y : Z) :
  fold_right Z.max (Z.max x y) xs = Z.max y (fold_right Z.max x xs).
Proof. induction xs as [|z xs IH]; simpl; lia. Qed.

Lemma max_default_fold (xs : list Z) (x : Z) :
  Py.max_default 0 (x :: xs) = fold_right Z.max x xs.
Proof.
  simpl. revert x. induction xs as [|y xs IH]; intros x; simpl; [reflexivity|].
  rewrite max_step, IH. apply fold_right_max_shift.
Qed.

Lemma new_id_next_id (tools : list App3.tool) :
  App3.new_id tools = Spec.next_id (map App3.id tools).
Proof.
  unfold App3.new_id. destruct tools as [|t tools]; [reflexivity|].
  cbn [map]. rewrite max_default_fold. simpl. lia.
Qed.

Lemma fold_right_max_ge (xs : list Z) (x y : Z) :
  In y (x :: xs) -> y <= fold_right Z.max x xs.
Proof.
  induction xs as [|z xs IH]; simpl.
  - intros [->|[]]. lia.
  - intros [->|[->|H]].
    + assert (y <= fold_right Z.max y xs) by (apply IH; now left). lia.
    + lia.
    + assert (y <= fold_right Z.max x xs) by (apply IH; now right). lia.
Qed.

Lemma fold_right_max_in (xs : list Z) (x : Z) :
  In (fold_right Z.max x xs) (x :: xs).
Proof.
  induction xs as [|z xs IH]; simpl; [now left|].
  destruct (Z.max_spec z (fold_right Z.max x xs)) as [[_ ->]|[_ ->]].
  - destruct IH as [H|H]; [now left | now right; right].
  - right. now left.
Qed.

Lemma new_id_fresh (tools : list App3.tool) (t : App3.tool) :
  In t tools -> App3.id t < App3.new_id tools.
Proof.
  intros H. rewrite new_id_next_id.
  destruct tools as [|t0 tools]; [destruct H|].
  cbn [map Spec.next_id].
  assert (App3.id t <= fold_right Z.max (App3.id t0) (map App3.id tools)).
  { apply fold_right_max_ge. change (In (App3.id t) (map App3.id (t0 :: tools))).
    now apply in_map. }
  lia.
Qed.

Lemma truthy_nonempty (s : string) : Py.truthy s = true <-> s <> "".
Proof. destruct s; simpl; split; congruence. Qed.

Lemma add_tool_filled_in (f : App3.Form.t) (s : App3.session_state) :
  App3.filled_in f ->
  App3.add_tool f s =
  ({| App3.ai_tools :=
        App3.ai_tools s ++ [App3.tool_of_form (App3.new_id (App3.ai_tools s)) f];
      App3.kpi_data :=
        <[ App3.new_id (App3.ai_tools s) := [App3.first_kpi f] ]> (App3.kpi_data s) |},
   App3.Success (App3.new_id (App3.ai_tools s))).
Proof.
  intros (Hn & Hc & Hi). unfold App3.add_tool.
  rewrite (proj2 (truthy_nonempty _) Hn), (proj2 (truthy_nonempty _) Hc),
          (proj2 (Z.ltb_lt _ _) Hi).
  reflexivity.
Qed.

Lemma add_tool_not_filled_in (f : App3.Form.t) (s : App3.session_state) :
  ~ App3.filled_in f -> App3.add_tool f s = (s, App3.Error).
Proof.
  intros H. unfold App3.add_tool.
  destruct (Py.truthy (App3.Form.tool_name f)) eqn:En; [|reflexivity].
  destruct (Py.truthy (App3.Form.category f)) eqn:Ec; [|reflexivity].
  destruct (0 <? App3.Form.total_investment f) eqn:Ei; [|reflexivity].
  exfalso. apply H. unfold App3.filled_in.
  rewrite <- !truthy_nonempty, <- Z.ltb_lt. auto.
Qed.







(** A page of [app3.py] never sees the empty tool list: the script
    loads the two sample tools first, so the first tool a user submits
    in a fresh session receives identifier 3. *)
Lemma first_submission_in_session (f : App3.Form.t) :
  App3.filled_in f ->
  map App3.id (App3.ai_tools (App3.session [App3.SubmitAddTool f])) = [1; 2; 3].
Proof.
  intros H. unfold App3.session. simpl. unfold App3.run.
  change (App3.load_sample_data App3.empty_session)
    with {| App3.ai_tools := App3.sample_tools;
            App3.kpi_data := App3.sample_kpi_data |}.
  now rewrite (add_tool_filled_in f _ H).
Qed.

(** C8, as the code has it: the submit handler of [app3.py] adds the
    tool exactly when name and category are non-empty and the
    investment is strictly positive, and otherwise reports an error and
    leaves the session as it was; the handler of [app2.py] adds the
    tool exactly when the name is non-empty, whatever the investment
    (which its widget keeps non-negative), and otherwise leaves the
    tool list as it was. *)
Theorem add_tool_accepts :
  (forall f s,
     App3.filled_in f ->
     App3.add_tool f s =
     ({| App3.ai_tools :=
           App3.ai_tools s ++ [App3.tool_of_form (App3.new_id (App3.ai_tools s)) f];
         App3.kpi_data :=
           <[ App3.new_id (App3.ai_tools s) := [App3.first_kpi f] ]>
             (App3.kpi_data s) |},
      App3.Success (App3.new_id (App3.ai_tools s)))) /\
  (forall f s, ~ App3.filled_in f -> App3.add_tool f s = (s, App3.Error)) /\
  (forall f s,
     App2.Form.tool_name f <> "" ->
     exists t, App2.add_tool f s = (s ++ [t], true) /\
               App2.name t = App2.Form.tool_name f /\
               App2.investment t = App2.Form.investment f /\
               App2.kpis t = App2.kpis_to_add f) /\
  (forall f s, App2.Form.tool_name f = "" -> App2.add_tool f s = (s, false)).
Proof.
  split; [exact add_tool_filled_in|]. split; [exact add_tool_not_filled_in|].
  split.
  - intros f s H. unfold App2.add_tool.
    rewrite (proj2 (truthy_nonempty _) H). eexists.
    split; [reflexivity|]. repeat split.
  - intros f s H. unfold App2.add_tool. now rewrite H.
Qed.

Lemma add_tool_accepts_witness :
  let f := {| App3.Form.tool_name := "Planner"; App3.Form.category := "Other";
              App3.Form.total_investment := 1000;
              App3.Form.implementation_date := 739000;
              App3.Form.team_size := 1; App3.Form.description := "";
              App3.Form.kpi1_name := "Time Saved";
              App3.Form.kpi1_current := 0; App3.Form.kpi1_target := 100;
              App3.Form.kpi1_unit := "hours/month";
              App3.Form.add_more_kpis := false;
              App3.Form.additional_kpis := [] |} in
  App3.filled_in f /\
  snd (App3.add_tool f (App3.load_sample_data App3.empty_session)) =
  App3.Success 3.
Proof.
  intros f.
  assert (H : App3.filled_in f) by (repeat split; discriminate).
  split; [exact H|].
  now rewrite (proj1 add_tool_accepts f _ H).
Defined.

(** C8 as stated fails on [app3.py]: a named tool with an investment of
    exactly 0 is turned down. *)
Lemma add_tool_rejects_zero_investment :
  let f := {| App3.Form.tool_name := "Planner"; App3.Form.category := "Other";
              App3.Form.total_investment := 0;
              App3.Form.implementation_date := 739000;
              App3.Form.team_size := 1; App3.Form.description := "";
              App3.Form.kpi1_name := "Time Saved";
              App3.Form.kpi1_current := 0; App3.Form.kpi1_target := 100;
              App3.Form.kpi1_unit := "hours/month";
              App3.Form.add_more_kpis := false;
              App3.Form.additional_kpis := [] |} in
  let s := App3.load_sample_data App3.empty_session in
  App3.Form.tool_name f <> "" /\ 0 <= App3.Form.total_investment f /\
  App3.Form.allowed f /\
  App3.add_tool f s = (s, App3.Error).
Proof.
  intros f s. split; [discriminate|]. split; [discriminate|].
  split; [|reflexivity].
  unfold App3.Form.allowed. simpl. repeat split; try lia.
Qed.

(** C10: a submission of [app3.py] that is accepted stores exactly one
    KPI record for the new tool, built from the "KPI 1" inputs;
    whatever was ticked and typed under "Additional KPIs", for any
    number of rows, changes neither the stored session nor the
    outcome. *)
Theorem add_tool_single_kpi
    (f : App3.Form.t) (s : App3.session_state)
    (more : bool) (rows : list App3.kpi) :
  App3.filled_in f ->
  let i := App3.new_id (App3.ai_tools s) in
  let f' := App3.Form.with_additional more rows f in
  App3.add_tool f' s = App3.add_tool f s /\
  exists s',
    App3.add_tool f' s = (s', App3.Success i) /\
    App3.kpi_data s' !! i = Some [App3.first_kpi f] /\
    App3.ai_tools s' = App3.ai_tools s ++ [App3.tool_of_form i f] /\
    (forall j, j <> i -> App3.kpi_data s' !! j = App3.kpi_data s !! j).
Proof.
  intros Hf i f'. split; [reflexivity|].
  change (App3.add_tool f' s) with (App3.add_tool f s).
  rewrite (add_tool_filled_in f s Hf). fold i. eexists.
  split; [reflexivity|]. cbn [App3.kpi_data App3.ai_tools].
  split; [apply lookup_insert_eq|]. split; [reflexivity|].
  intros j Hj. now apply lookup_insert_ne.
Qed.

Lemma add_tool_single_kpi_witness :
  let row n := {| App3.kpi_name := n; App3.current := 1; App3.target := 2;
                  App3.unit := "%" |} in
  let rows := [row "A"; row "B"; row "C"; row "D"; row "E"] in
  let f := {| App3.Form.tool_name := "Planner"; App3.Form.category := "Other";
              App3.Form.total_investment := 1000;
              App3.Form.implementation_date := 739000;
              App3.Form.team_size := 1; App3.Form.description := "";
              App3.Form.kpi1_name := "Time Saved";
              App3.Form.kpi1_current := 0; App3.Form.kpi1_target := 100;
              App3.Form.kpi1_unit := "hours/month";
              App3.Form.add_more_kpis := true;
              App3.Form.additional_kpis := rows |} in
  let s := App3.load_sample_data App3.empty_session in
  App3.filled_in f /\
  exists s',
    App3.add_tool f s = (s', App3.Success 3) /\
    App3.kpi_data s' !! 3
    = Some [ {| App3.kpi_name := "Time Saved"; App3.current := 0;
                App3.target := 100; App3.unit := "hours/month" |} ].
Proof.
  intros row rows f s.
  assert (Hf : App3.filled_in f) by (repeat split; discriminate).
  split; [exact Hf|].
  destruct (add_tool_single_kpi f s true rows Hf) as (_ & s' & Hs' & Hk & _).
  exists s'. split; [exact Hs' | exact Hk].
Defined.

(** ** Recommendations *)

(** *** [app2.py] *)

Lemma app2_performance_ratio (d : App2.kpi_data) :
  App2.performance d = Py.Ok (Spec.ratio (App2.current d) (App2.target d)).
Proof.
  unfold App2.performance, Spec.ratio.
  destruct (Qeq_bool (App2.target d) 0) eqn:E; simpl; [reflexivity|].
  rewrite truediv_ok; [reflexivity|]. now apply Qeq_bool_neq.
Qed.

Lemma app2_check_kpi_cases (t : App2.tool) (kpi_name : string)
    (d : App2.kpi_data) (recs : list App2.recommendation) :
  let p := Spec.ratio (App2.current d) (App2.target d) in
  App2.check_kpi t (kpi_name, d) recs =
  Py.Ok (recs ++ (if Py.ltb p 80 then [App2.underperforming t kpi_name p]
                  else if Py.ltb 120 p then [App2.exceeding t kpi_name p]
                  else [])).
Proof.
  intros p. unfold App2.check_kpi. rewrite app2_performance_ratio.
  fold p. simpl. destruct (Py.ltb p 80); [reflexivity|].
  destruct (Py.ltb 120 p); [reflexivity|]. now rewrite app_nil_r.
Qed.

(** C5, as the code has it: for a KPI whose target is 0 no division is
    performed anywhere.  [kpi_performance] is 0 and the KPI adds nothing
    to the total of [get_performance_percentage]; the recommendation
    ratio of [app2.py] is 0, so the KPI is reported as underperforming
    by 100%; the recommendation loop of [app3.py] computes no ratio for
    it and passes it over. *)
Theorem zero_target_never_divides :
  (forall k : App3.kpi,
     (App3.target k == 0)%Q ->
     App3.kpi_performance k = Py.Ok 0%Q /\
     (forall acc, App3.add_performance k acc = Py.Ok acc) /\
     (forall t acc, App3.check_kpi t k acc = Py.Ok acc)) /\
  (forall d : App2.kpi_data,
     (App2.target d == 0)%Q ->
     App2.performance d = Py.Ok 0%Q /\
     (forall t kpi_name recs,
        App2.check_kpi t (kpi_name, d) recs =
        Py.Ok (recs ++
               [ {| App2.rec_tool := App2.name t; App2.rec_kpi := kpi_name;
                    App2.issue := "Underperforming by 100%";
                    App2.suggestion :=
                      "Consider additional training or tool optimization" |} ]))).
Proof.
  split.
  - intros k Hz.
    assert (E : Py.ltb 0 (App3.target k) = false).
    { apply ltb_ge. rewrite Hz. discriminate. }
    split; [|split].
    + apply progress_nonpos. intros H. apply ltb_lt in H. congruence.
    + intros acc. unfold App3.add_performance. now rewrite E.
    + intros t acc. unfold App3.check_kpi. now rewrite E.
  - intros d Hz.
    assert (E : Spec.ratio (App2.current d) (App2.target d) = 0%Q).
    { unfold Spec.ratio. now rewrite (proj2 (Qeq_bool_iff _ _) Hz). }
    split.
    + now rewrite app2_performance_ratio, E.
    + intros t n recs. rewrite app2_check_kpi_cases. cbv zeta.
      rewrite E. reflexivity.
Qed.

Lemma zero_target_never_divides_witness :
  let k := {| App3.kpi_name := "Adoption"; App3.current := 50;
              App3.target := 0; App3.unit := "%" |} in
  (App3.target k == 0)%Q /\ App3.kpi_performance k = Py.Ok 0%Q.
Proof.
  intros k. split; [reflexivity|].
  apply (proj1 zero_target_never_divides k). reflexivity.
Defined.

(** C5 as stated fails on [app3.py]: its recommendation loop does not
    treat a KPI with target 0 as one with ratio 0.  A KPI at 0 of a
    target of 100 (ratio 0) is listed; a KPI with target 0 is not. *)
Lemma app3_zero_target_not_ratio_zero :
  let t := {| App3.id := 1; App3.name := "Planner"; App3.category := "Other";
              App3.total_investment := 1000;
              App3.implementation_date := 739000; App3.team_size := 1;
              App3.description := "" |} in
  let session k :=
    {| App3.ai_tools := [t]; App3.kpi_data := {[ 1 := [k] ]} |} in
  let k0 := {| App3.kpi_name := "Adoption"; App3.current := 0;
               App3.target := 100; App3.unit := "%" |} in
  let kz := {| App3.kpi_name := "Adoption"; App3.current := 50;
               App3.target := 0; App3.unit := "%" |} in
  (Spec.ratio (App3.current k0) (App3.target k0) == 0)%Q /\
  (Spec.ratio (App3.current kz) (App3.target kz) == 0)%Q /\
  (exists it, App3.underperforming_tools (session k0) = Py.Ok [it]) /\
  App3.underperforming_tools (session kz) = Py.Ok [].
Proof.
  intros t session k0 kz. split; [reflexivity|]. split; [reflexivity|].
  split; [|reflexivity]. eexists. reflexivity.
Qed.

(** * Further properties of the two scripts *)

(** ** Months in use ([app3.py]) *)

Lemma days_over_30_le_1 (d : Z) : (inject_Z d / 30 <= 1)%Q <-> d <= 30.
Proof.
  unfold Qle, Qdiv, Qmult, Qinv, inject_Z. simpl.
  rewrite Pos.mul_1_l. lia.
Qed.

Lemma days_over_30_ge_1 (d : Z) : (1 <= inject_Z d / 30)%Q <-> 30 <= d.
Proof.
  unfold Qle, Qdiv, Qmult, Qinv, inject_Z. simpl.
  rewrite Pos.mul_1_l. lia.
Qed.

Lemma days_over_30_gt_1 (d : Z) : (1 < inject_Z d / 30)%Q <-> 30 < d.
Proof.
  unfold Qlt, Qdiv, Qmult, Qinv, inject_Z. simpl.
  rewrite Pos.mul_1_l. lia.
Qed.

(** [months_in_use] never raises and is never below one month: a tool
    in use for at most 30 days (or dated in the future) counts one
    month, a tool in use for 30 days or more counts days/30. *)
Theorem months_in_use_at_least_one (now implementation : Z) :
  exists m,
    App3.months_in_use now implementation = Py.Ok m /\
    (1 <= m)%Q /\
    (now - implementation <= 30 -> (m == 1)%Q) /\
    (30 <= now - implementation ->
     (m == inject_Z (now - implementation) / 30)%Q).
Proof.
  rewrite months_in_use_ok. eexists. split; [reflexivity|].
  unfold Py.max2.
  destruct (Py.ltb 1 (inject_Z (now - implementation) / 30)) eqn:E.
  - apply ltb_lt in E. split; [now apply Qlt_le_weak|].
    apply (proj1 (days_over_30_gt_1 _)) in E.
    split; [intros H; exfalso; lia | reflexivity].
  - apply ltb_ge in E. split; [discriminate|].
    split; [reflexivity|]. intros H.
    apply Qle_antisym; [|exact E].
    now apply days_over_30_ge_1.
Qed.

(** ** Bounds of the average performance ([app3.py]) *)

Lemma inject_Z_succ (n : nat) :
  (inject_Z (Z.of_nat (S n)) == inject_Z (Z.of_nat n) + 1)%Q.
Proof. rewrite Nat2Z.inj_succ. unfold Z.succ. now rewrite inject_Z_plus. Qed.

Lemma sum_le (c : Q) (ps : list Q) :
  Forall (fun p => (p <= c)%Q) ps ->
  (Spec.sum ps <= inject_Z (Z.of_nat (List.length ps)) * c)%Q.
Proof.
  induction 1 as [|p ps Hp _ IH].
  - simpl. ring_simplify. apply Qle_refl.
  - cbn [Spec.sum fold_right List.length]. rewrite inject_Z_succ.
    fold (Spec.sum ps).
    assert (E : ((inject_Z (Z.of_nat (List.length ps)) + 1) * c ==
                 c + inject_Z (Z.of_nat (List.length ps)) * c)%Q) by ring.
    rewrite E. now apply Qplus_le_compat.
Qed.

Lemma sum_nonneg (ps : list Q) :
  Forall (fun p => (0 <= p)%Q) ps -> (0 <= Spec.sum ps)%Q.
Proof.
  induction 1 as [|p ps Hp _ IH]; [apply Qle_refl|].
  cbn [Spec.sum fold_right]. fold (Spec.sum ps).
  apply (Qplus_le_compat 0 p 0 (Spec.sum ps) Hp IH).
Qed.

Lemma progress_nonneg (cur tgt p : Q) :
  (0 <= cur)%Q -> App3.progress cur tgt = Py.Ok p -> (0 <= p)%Q.
Proof.
  intros Hc. destruct (Py.ltb 0 tgt) eqn:E.
  - apply ltb_lt in E. rewrite (progress_pos _ _ E). intros [= <-].
    unfold Py.min2. destruct (Py.ltb _ 100); [|discriminate].
    apply Qmult_le_0_compat; [|discriminate].
    apply Qle_shift_div_l; [exact E|]. now rewrite Qmult_0_l.
  - rewrite progress_nonpos; [now intros [= <-]|].
    intros H. apply ltb_lt in H. congruence.
Qed.

Lemma performance_percentage_range (kpis : list App3.kpi) :
  exists r,
    App3.get_performance_percentage kpis = Py.Ok r /\
    (r <= 100)%Q /\
    (Forall (fun k => (0 <= App3.current k)%Q) kpis -> (0 <= r)%Q).
Proof.
  destruct (total_performance_sum kpis) as (ps & Hps & Hsum).
  destruct kpis as [|k kpis].
  - exists 0%Q. split; [reflexivity|]. split; [discriminate|].
    intros _. apply Qle_refl.
  - destruct (Hsum 0%Q) as (r & Hr & Hr').
    assert (Hlen : List.length ps = S (List.length kpis)).
    { apply Forall2_length in Hps. simpl in Hps. lia. }
    assert (Hn : (0 < inject_Z (Z.of_nat (S (List.length kpis))))%Q).
    { rewrite <- (Zlt_Qlt 0). lia. }
    assert (Hle : Forall (fun p => (p <= 100)%Q) ps).
    { clear -Hps. induction Hps as [|k' p ks ps' Hp _ IH]; constructor; [|exact IH].
      destruct (progress_spec (App3.current k') (App3.target k'))
        as (p' & Hp' & _ & Hb).
      unfold App3.kpi_performance in Hp. congruence. }
    exists (r / inject_Z (Z.of_nat (S (List.length kpis))))%Q.
    split; [|split].
    + unfold App3.get_performance_percentage. rewrite Hr.
      simpl List.length. now apply truediv_pos.
    + apply Qle_shift_div_r; [exact Hn|]. rewrite Hr', Qplus_0_l.
      rewrite <- Hlen, (Qmult_comm 100). now apply sum_le.
    + intros Hcur. apply Qle_shift_div_l; [exact Hn|].
      rewrite Qmult_0_l, Hr', Qplus_0_l. apply sum_nonneg.
      clear -Hps Hcur. revert Hcur.
      induction Hps as [|k' p ks ps' Hp _ IH]; intros Hcur; constructor.
      * apply Forall_cons in Hcur as [Hc _].
        exact (progress_nonneg _ _ _ Hc Hp).
      * apply IH. now apply Forall_cons in Hcur as [_ Hc].
Qed.

(** The average performance of a tool never raises and never exceeds
    100; it is not negative when no KPI has a negative current value. *)
Theorem get_performance_percentage_bounds (kpis : list App3.kpi) :
  exists r,
    App3.get_performance_percentage kpis = Py.Ok r /\
    (r <= 100)%Q /\
    (Forall (fun k => (0 <= App3.current k)%Q) kpis -> (0 <= r)%Q).
Proof. exact (performance_percentage_range kpis). Qed.

(** ** The store of a session ([app3.py]) *)

Lemma select_tool_found (n : string) (s : App3.session_state) (t : App3.tool) :
  App3.select_tool n s = Py.Ok t -> In t (App3.ai_tools s) /\ App3.name t = n.
Proof.
  unfold App3.select_tool, Py.next.
  destruct (List.find _ _) as [t'|] eqn:E; [|discriminate].
  intros [= <-]. apply List.find_some in E as [Hin Hn].
  split; [exact Hin|]. now apply String.eqb_eq.
Qed.

Lemma set_targets_cases (n : string) (w : nat -> Q * Q * string)
    (sub : option App3.new_kpi_form) (s s' : App3.session_state) :
  App3.set_targets n w sub s = Py.Ok s' ->
  exists t, App3.select_tool n s = Py.Ok t /\
    (App3.kpi_data s !! App3.id t = None /\ s' = s \/
     exists kpis kpis',
       App3.kpi_data s !! App3.id t = Some kpis /\
       s' = {| App3.ai_tools := App3.ai_tools s;
               App3.kpi_data := <[ App3.id t := kpis' ]> (App3.kpi_data s) |} /\
       (List.length kpis <= List.length kpis')%nat /\
       (List.length kpis' <= S (List.length kpis))%nat /\
       map App3.kpi_name (take (List.length kpis) kpis')
       = map App3.kpi_name kpis).
Proof.
  unfold App3.set_targets. fold (App3.select_tool n s).
  destruct (App3.select_tool n s) as [t|e]; [|discriminate].
  simpl. intros H. exists t. split; [reflexivity|].
  destruct (App3.kpi_data s !! App3.id t) as [kpis|]; [right | left].
  2:{ split; [reflexivity|]. now injection H. }
  exists kpis. eexists. split; [reflexivity|].
  injection H as <-. split; [reflexivity|].
  set (f := fun (i : nat) (k : App3.kpi) => let '(c, g, u) := w i in
              {| App3.kpi_name := App3.kpi_name k; App3.current := c;
                 App3.target := g; App3.unit := u |}).
  assert (Hlen : List.length (imap f kpis) = List.length kpis)
    by apply length_imap.
  assert (Hnames : map App3.kpi_name (imap f kpis) = map App3.kpi_name kpis).
  { clear Hlen. subst f. generalize w. clear.
    induction kpis as [|k kpis IH]; intros w; [reflexivity|].
    simpl. destruct (w 0%nat) as [[c g] u]. simpl. f_equal.
    apply (IH (fun i => w (S i))). }
  destruct sub as [nk|]; [destruct (Py.truthy (App3.new_kpi_name nk))|].
  - rewrite length_app, Hlen. simpl. split; [lia|]. split; [lia|].
    rewrite <- Hlen at 1. rewrite take_app_length. exact Hnames.
  - rewrite Hlen. split; [lia|]. split; [lia|].
    rewrite <- Hlen at 1. rewrite firstn_all. exact Hnames.
  - rewrite Hlen. split; [lia|]. split; [lia|].
    rewrite <- Hlen at 1. rewrite firstn_all. exact Hnames.
Qed.


Lemma sample_shape :
  App3.store_shape {| App3.ai_tools := App3.sample_tools;
                      App3.kpi_data := App3.sample_kpi_data |}.
Proof.
  split.
  - intros t [<-|[<-|[]]]; eexists; (split; [reflexivity | discriminate]).
  - intros i kpis. unfold App3.sample_kpi_data. simpl.
    destruct (decide (i = 1)) as [->|H1].
    { intros _. eexists. split; [left; reflexivity | reflexivity]. }
    rewrite lookup_insert_ne by congruence.
    destruct (decide (i = 2)) as [->|H2].
    { intros _. eexists. split; [right; left; reflexivity | reflexivity]. }
    rewrite lookup_insert_ne by congruence. now rewrite lookup_empty.
Qed.

Lemma load_sample_data_shape (s : App3.session_state) :
  App3.store_shape s -> App3.store_shape (App3.load_sample_data s).
Proof.
  intros H. unfold App3.load_sample_data.
  destruct (App3.ai_tools s); [apply sample_shape | exact H].
Qed.

Lemma add_tool_shape (f : App3.Form.t) (s : App3.session_state) :
  App3.store_shape s -> App3.store_shape (fst (App3.add_tool f s)).
Proof.
  intros [Hp Ho]. unfold App3.add_tool.
  destruct (_ && _ && _); [|now split]. cbn [fst]. split.
  - intros t Ht. cbn [App3.ai_tools App3.kpi_data] in *.
    apply in_app_or in Ht as [Ht|[<-|[]]].
    + rewrite lookup_insert_ne.
      * now apply Hp.
      * apply new_id_fresh in Ht. lia.
    + cbn [App3.id]. rewrite lookup_insert_eq. eexists.
      split; [reflexivity | discriminate].
  - intros i kpis. cbn [App3.ai_tools App3.kpi_data].
    destruct (decide (App3.new_id (App3.ai_tools s) = i)) as [<-|Hne].
    + intros _. eexists. split; [apply in_or_app; right; left; reflexivity|].
      reflexivity.
    + rewrite lookup_insert_ne by exact Hne. intros H.
      destruct (Ho i kpis H) as (t & Ht & Hi). exists t.
      split; [apply in_or_app; now left | exact Hi].
Qed.

Lemma set_targets_shape (n : string) (w : nat -> Q * Q * string)
    (sub : option App3.new_kpi_form) (s s' : App3.session_state) :
  App3.store_shape s -> App3.set_targets n w sub s = Py.Ok s' ->
  App3.store_shape s'.
Proof.
  intros [Hp Ho] H.
  destruct (set_targets_cases _ _ _ _ _ H)
    as (t0 & Hsel & [[_ ->]|(kpis & kpis' & Hk & -> & Hl1 & _ & _)]);
    [now split|].
  apply select_tool_found in Hsel as [Hin0 _]. split.
  - intros t Ht. cbn [App3.ai_tools App3.kpi_data] in *.
    destruct (decide (App3.id t0 = App3.id t)) as [E|E].
    + rewrite E, lookup_insert_eq. eexists. split; [reflexivity|].
      destruct (Hp t0 Hin0) as (ks & Hks & Hne).
      assert (ks = kpis) by congruence. subst ks.
      destruct kpis; [congruence|]. destruct kpis'; [simpl in Hl1; lia|].
      discriminate.
    + rewrite lookup_insert_ne by exact E. now apply Hp.
  - intros i ks. cbn [App3.ai_tools App3.kpi_data].
    destruct (decide (App3.id t0 = i)) as [<-|E].
    + intros _. now exists t0.
    + rewrite lookup_insert_ne by exact E. apply Ho.
Qed.

Lemma run_shape (s : App3.session_state) (a : App3.action) :
  App3.store_shape s -> App3.store_shape (App3.run s a).
Proof.
  intros H. apply load_sample_data_shape in H.
  unfold App3.run. destruct a as [f|n w sub|].
  - now apply add_tool_shape.
  - destruct (App3.set_targets n w sub _) as [s'|e] eqn:E; [|exact H].
    exact (set_targets_shape _ _ _ _ _ H E).
  - exact H.
Qed.

(** Every tool a page can see has at least one KPI record stored
    under its identifier, and every stored KPI list belongs to a listed
    tool. *)
Theorem session_store_shape (actions : list App3.action) :
  let s := App3.load_sample_data (App3.session actions) in
  (forall t, In t (App3.ai_tools s) ->
     exists kpis, App3.kpi_data s !! App3.id t = Some kpis /\ kpis <> []) /\
  (forall i kpis, App3.kpi_data s !! i = Some kpis ->
     exists t, In t (App3.ai_tools s) /\ App3.id t = i).
Proof.
  apply load_sample_data_shape. unfold App3.session.
  assert (H : App3.store_shape App3.empty_session).
  { split; [intros t []|]. intros i kpis. simpl. now rewrite lookup_empty. }
  revert H. generalize App3.empty_session.
  induction actions as [|a actions IH]; intros s H; [exact H|].
  simpl. apply IH, run_shape, H.
Qed.

Lemma load_sample_data_nonempty (s : App3.session_state) :
  App3.ai_tools (App3.load_sample_data s) <> [].
Proof.
  unfold App3.load_sample_data.
  destruct (App3.ai_tools s) eqn:E; [discriminate | now rewrite E].
Qed.

Lemma load_sample_data_idem (s : App3.session_state) :
  App3.ai_tools s <> [] -> App3.load_sample_data s = s.
Proof.
  unfold App3.load_sample_data. now destruct (App3.ai_tools s).
Qed.

Lemma run_extends (s : App3.session_state) (a : App3.action) :
  exists added,
    App3.ai_tools (App3.run s a)
    = App3.ai_tools (App3.load_sample_data s) ++ added /\
    (List.length added <= 1)%nat.
Proof.
  unfold App3.run. destruct a as [f|n w sub|].
  - unfold App3.add_tool. destruct (_ && _ && _); cbn [fst App3.ai_tools].
    + eexists. split; [reflexivity | simpl; lia].
    + exists []. split; [now rewrite app_nil_r | simpl; lia].
  - exists []. rewrite app_nil_r. split; [|simpl; lia].
    destruct (App3.set_targets n w sub _) as [s'|e] eqn:E; [|reflexivity].
    exact (set_targets_tools _ _ _ _ _ E).
  - exists []. split; [now rewrite app_nil_r | simpl; lia].
Qed.

Lemma run_nonempty (s : App3.session_state) (a : App3.action) :
  App3.ai_tools (App3.run s a) <> [].
Proof.
  destruct (run_extends s a) as (added & -> & _).
  pose proof (load_sample_data_nonempty s).
  destruct (App3.ai_tools (App3.load_sample_data s)); [congruence | discriminate].
Qed.

Lemma session_snoc (actions : list App3.action) (a : App3.action) :
  App3.session (actions ++ [a]) = App3.run (App3.session actions) a.
Proof. unfold App3.session. now rewrite fold_left_app. Qed.

Lemma session_starts_with_samples (actions : list App3.action) :
  exists rest,
    App3.ai_tools (App3.load_sample_data (App3.session actions))
    = App3.sample_tools ++ rest.
Proof.
  induction actions as [|a actions IH] using rev_ind.
  - exists []. reflexivity.
  - rewrite session_snoc.
    rewrite (load_sample_data_idem _ (run_nonempty _ a)).
    destruct (run_extends (App3.session actions) a) as (added & -> & _).
    destruct IH as (rest & ->). exists (rest ++ added).
    now rewrite app_assoc.
Qed.

(** No page removes, reorders or alters a stored tool: one more script
    run leaves the tool list as it was, with at most one tool appended;
    the two sample tools are always the first two of the list. *)
Theorem session_keeps_tools (actions : list App3.action) (a : App3.action) :
  (exists added,
     App3.ai_tools (App3.load_sample_data (App3.session (actions ++ [a])))
     = App3.ai_tools (App3.load_sample_data (App3.session actions)) ++ added /\
     (List.length added <= 1)%nat) /\
  (exists rest,
     App3.ai_tools (App3.load_sample_data (App3.session actions))
     = App3.sample_tools ++ rest).
Proof.
  split; [|apply session_starts_with_samples].
  rewrite session_snoc, (load_sample_data_idem _ (run_nonempty _ a)).
  apply run_extends.
Qed.

(** ** Set Targets ([app3.py]) *)

(** A Set Targets run that goes through changes nothing but the KPI
    list of the selected tool (the first tool of that name): the tool
    list and every other tool's KPI list stay as they were, and in the
    selected tool's list the KPI names keep their places, with at most
    one KPI added behind them. *)
Theorem set_targets_keeps_names (n : string) (w : nat -> Q * Q * string)
    (sub : option App3.new_kpi_form) (s s' : App3.session_state) :
  App3.set_targets n w sub s = Py.Ok s' ->
  App3.ai_tools s' = App3.ai_tools s /\
  exists t,
    App3.select_tool n s = Py.Ok t /\
    (forall i, i <> App3.id t ->
       App3.kpi_data s' !! i = App3.kpi_data s !! i) /\
    (App3.kpi_data s !! App3.id t = None -> s' = s) /\
    (forall kpis,
       App3.kpi_data s !! App3.id t = Some kpis ->
       exists kpis',
         App3.kpi_data s' !! App3.id t = Some kpis' /\
         (List.length kpis <= List.length kpis' <= S (List.length kpis))%nat /\
         map App3.kpi_name (take (List.length kpis) kpis')
         = map App3.kpi_name kpis).
Proof.
  intros H. split; [exact (set_targets_tools _ _ _ _ _ H)|].
  destruct (set_targets_cases _ _ _ _ _ H)
    as (t & Hsel & [[Hnone ->]|(kpis & kpis' & Hk & -> & Hl1 & Hl2 & Hn)]);
    exists t; (split; [exact Hsel|]).
  - split; [reflexivity|]. split; [reflexivity|]. intros kpis Hk. congruence.
  - split; [|split].
    + intros i Hi. cbn [App3.kpi_data]. now rewrite lookup_insert_ne.
    + congruence.
    + intros ks Hks. assert (ks = kpis) by congruence. subst ks.
      exists kpis'. cbn [App3.kpi_data]. rewrite lookup_insert_eq.
      split; [reflexivity|]. split; [lia | exact Hn].
Qed.

Lemma set_targets_keeps_names_witness :
  let s := App3.load_sample_data App3.empty_session in
  let w := fun _ : nat => (50%Q, 100%Q, "%") in
  exists s',
    App3.set_targets "Risk Predictor" w None s = Py.Ok s' /\
    App3.ai_tools s' = App3.ai_tools s.
Proof.
  intros s w. eexists. split; [reflexivity|].
  exact (proj1 (set_targets_keeps_names "Risk Predictor" w None s _ eq_refl)).
Defined.

(** Submitting "Add New KPI" with a name appends that KPI behind the
    selected tool's existing KPIs, whose number and names are kept;
    submitting it without a name adds nothing. *)
Theorem set_targets_appends_kpi (n : string) (w : nat -> Q * Q * string)
    (f : App3.new_kpi_form) (s : App3.session_state)
    (t : App3.tool) (kpis : list App3.kpi) :
  App3.select_tool n s = Py.Ok t ->
  App3.kpi_data s !! App3.id t = Some kpis ->
  (App3.new_kpi_name f <> "" ->
   exists s' kpis',
     App3.set_targets n w (Some f) s = Py.Ok s' /\
     App3.kpi_data s' !! App3.id t =
     Some (kpis' ++ [ {| App3.kpi_name := App3.new_kpi_name f;
                         App3.current := App3.new_kpi_current f;
                         App3.target := App3.new_kpi_target f;
                         App3.unit := App3.new_kpi_unit f |} ]) /\
     map App3.kpi_name kpis' = map App3.kpi_name kpis) /\
  (App3.new_kpi_name f = "" ->
   App3.set_targets n w (Some f) s = App3.set_targets n w None s).
Proof.
  intros Hsel Hk. split.
  - intros Hn.
    destruct (App3.set_targets n w None s) as [s0|e] eqn:E0.
    2:{ unfold App3.set_targets in E0. fold (App3.select_tool n s) in E0.
        rewrite Hsel in E0. simpl in E0. rewrite Hk in E0. discriminate. }
    destruct (set_targets_cases _ _ _ _ _ E0)
      as (t' & Hsel' & [[Hnone _]|(ks & kpis' & Hks & -> & Hl1 & Hl2 & Hnames)]).
    { assert (t' = t) by congruence. subst t'. congruence. }
    assert (t' = t) by congruence. subst t'.
    assert (ks = kpis) by congruence. subst ks.
    unfold App3.set_targets in E0 |- *. fold (App3.select_tool n s) in E0 |- *.
    rewrite Hsel in E0 |- *. simpl in E0 |- *. rewrite Hk in E0 |- *.
    rewrite (proj2 (truthy_nonempty _) Hn).
    injection E0 as E0. eexists. eexists. split; [reflexivity|].
    cbn [App3.kpi_data]. rewrite lookup_insert_eq. split; [reflexivity|].
    apply (f_equal (fun m => m !! App3.id t)) in E0.
    rewrite !lookup_insert_eq in E0. injection E0 as E0.
    rewrite E0.
    assert (List.length kpis' = List.length kpis).
    { rewrite <- E0. apply length_imap. }
    rewrite <- Hnames, <- H. now rewrite firstn_all.
  - intros Hn. unfold App3.set_targets. now rewrite Hn.
Qed.

Lemma set_targets_appends_kpi_witness :
  let s := App3.load_sample_data App3.empty_session in
  let f := {| App3.new_kpi_name := "Alerts Handled"; App3.new_kpi_current := 10;
              App3.new_kpi_target := 20; App3.new_kpi_unit := "per week" |} in
  exists t kpis s' kpis',
    App3.select_tool "Risk Predictor" s = Py.Ok t /\
    App3.kpi_data s !! App3.id t = Some kpis /\
    App3.new_kpi_name f <> "" /\
    App3.set_targets "Risk Predictor" (App3.default_widgets kpis) (Some f) s
    = Py.Ok s' /\
    App3.kpi_data s' !! App3.id t =
    Some (kpis' ++ [ {| App3.kpi_name := "Alerts Handled"; App3.current := 10;
                        App3.target := 20; App3.unit := "per week" |} ]).
Proof.
  intros s f.
  pose (t := {| App3.id := 2; App3.name := "Risk Predictor";
                App3.category := "Risk Management";
                App3.total_investment := 25000;
                App3.implementation_date := 738917; App3.team_size := 22;
                App3.description :=
                  "Predicts project risks and suggests mitigation strategies" |}).
  assert (Hsel : App3.select_tool "Risk Predictor" s = Py.Ok t) by reflexivity.
  destruct (App3.kpi_data s !! App3.id t) as [kpis|] eqn:Hk; [|discriminate].
  assert (Hn : App3.new_kpi_name f <> "") by discriminate.
  destruct (proj1 (set_targets_appends_kpi "Risk Predictor"
                     (App3.default_widgets kpis) f s t kpis Hsel Hk) Hn)
    as (s' & kpis' & Hs' & Hl & _).
  exists t, kpis, s', kpis'. repeat split; assumption.
Defined.

Lemma find_app_first {A} (p : A -> bool) (l l' : list A) (x : A) :
  List.find p l = Some x -> List.find p (l ++ l') = Some x.
Proof.
  induction l as [|y l IH]; simpl; [discriminate|].
  destruct (p y); [trivial | exact IH].
Qed.

(** The add form does not ask for a fresh name, and every page picks
    the first tool of the chosen name: a tool added under a name that a
    listed tool already has can never be selected; the older tool is. *)
Theorem duplicate_name_selects_older (f : App3.Form.t)
    (s : App3.session_state) (t : App3.tool) :
  In t (App3.ai_tools s) -> App3.name t = App3.Form.tool_name f ->
  App3.filled_in f ->
  exists older,
    snd (App3.add_tool f s) = App3.Success (App3.new_id (App3.ai_tools s)) /\
    App3.select_tool (App3.Form.tool_name f) (fst (App3.add_tool f s))
    = Py.Ok older /\
    In older (App3.ai_tools s) /\
    App3.id older < App3.new_id (App3.ai_tools s).
Proof.
  intros Ht Hn Hf. rewrite (add_tool_filled_in f s Hf). cbn [fst snd].
  destruct (List.find (fun t' => String.eqb (App3.name t') (App3.Form.tool_name f))
              (App3.ai_tools s)) as [older|] eqn:E.
  - exists older. split; [reflexivity|].
    unfold App3.select_tool, Py.next. cbn [App3.ai_tools].
    rewrite (find_app_first _ _ _ _ E). split; [reflexivity|].
    apply List.find_some in E as [Hin _].
    split; [exact Hin | now apply new_id_fresh].
  - exfalso. apply (List.find_none _ _ E) in Ht.
    rewrite Hn, String.eqb_refl in Ht. discriminate.
Qed.

Lemma duplicate_name_selects_older_witness :
  let s := App3.load_sample_data App3.empty_session in
  let f := {| App3.Form.tool_name := "Risk Predictor";
              App3.Form.category := "Other";
              App3.Form.total_investment := 1000;
              App3.Form.implementation_date := 739000;
              App3.Form.team_size := 1; App3.Form.description := "";
              App3.Form.kpi1_name := "Time Saved";
              App3.Form.kpi1_current := 0; App3.Form.kpi1_target := 100;
              App3.Form.kpi1_unit := "hours/month";
              App3.Form.add_more_kpis := false;
              App3.Form.additional_kpis := [] |} in
  exists older,
    App3.select_tool "Risk Predictor" (fst (App3.add_tool f s)) = Py.Ok older /\
    App3.id older < 3.
Proof.
  intros s f.
  assert (Hf : App3.filled_in f) by (repeat split; discriminate).
  destruct (duplicate_name_selects_older f s
              {| App3.id := 2; App3.name := "Risk Predictor";
                 App3.category := "Risk Management";
                 App3.total_investment := 25000;
                 App3.implementation_date := 738917; App3.team_size := 22;
                 App3.description :=
                   "Predicts project risks and suggests mitigation strategies" |})
    as (older & _ & Hsel & _ & Hlt).
  - right; left; reflexivity.
  - reflexivity.
  - exact Hf.
  - exists older. split; [exact Hsel | exact Hlt].
Defined.

(** ** The recommendation lists as comprehensions *)

Lemma for_each_flat_map {A R} (body : A -> list R -> Py.result (list R))
    (g : A -> list R) (xs : list A) :
  (forall x acc, In x xs -> body x acc = Py.Ok (acc ++ g x)) ->
  forall acc, Py.for_each xs body acc = Py.Ok (acc ++ flat_map g xs).
Proof.
  induction xs as [|x xs IH]; intros H acc; simpl.
  - now rewrite app_nil_r.
  - rewrite (H x acc) by now left. rewrite IH.
    + now rewrite <- app_assoc.
    + intros y a Hy. apply H. now right.
Qed.

Lemma flat_map_nil_iff {A B} (g : A -> list B) (xs : list A) :
  flat_map g xs = [] <-> forall x, In x xs -> g x = [].
Proof.
  induction xs as [|x xs IH]; simpl.
  - split; [intros _ y [] | reflexivity].
  - split.
    + intros H. apply app_eq_nil in H as [Hx Hxs].
      intros y [<-|Hy]; [exact Hx | now apply IH].
    + intros H. rewrite (H x) by now left. simpl. apply IH.
      intros y Hy. apply H. now right.
Qed.

(** ** Which KPI counts as the cost KPI ([app3.py]) *)

Lemma append_cons (c : ascii) (s t : string) :
  (String c s ++ t = String c (s ++ t))%string.
Proof. reflexivity. Qed.

Lemma prefix_iff (p s : string) :
  String.prefix p s = true <-> exists post, s = (p ++ post)%string.
Proof.
  revert s. induction p as [|a p IH]; intros s.
  - split; [intros _; now exists s | now destruct s].
  - destruct s as [|b s]; simpl;
      [split; [discriminate
              | intros (post & H); rewrite append_cons in H; discriminate]|].
    destruct (ascii_dec a b) as [->|Hne].
    + rewrite IH. split; intros (post & H); exists post;
        rewrite append_cons in *; congruence.
    + split; [discriminate|]. intros (post & H).
      rewrite append_cons in H. congruence.
Qed.

Lemma contains_iff (pat s : string) :
  Py.contains pat s = true <->
  exists pre post, s = (pre ++ pat ++ post)%string.
Proof.
  induction s as [|c s IH]; cbn [Py.contains].
  - rewrite orb_false_r, prefix_iff. split.
    + intros (post & H). now exists "", post.
    + intros (pre & post & H). destruct pre as [|c pre].
      * now exists post.
      * rewrite append_cons in H. discriminate.
  - rewrite orb_true_iff, prefix_iff, IH. split.
    + intros [(post & H)|(pre & post & H)].
      * now exists "", post.
      * exists (String c pre), post. rewrite append_cons. now rewrite H.
    + intros (pre & post & H). destruct pre as [|c' pre].
      * left. now exists post.
      * right. exists pre, post. rewrite append_cons in H. congruence.
Qed.

Lemma lower_ascii_idem (c : ascii) :
  Py.lower_ascii (Py.lower_ascii c) = Py.lower_ascii c.
Proof.
  destruct c as [[] [] [] [] [] [] [] []]; reflexivity.
Qed.

(** A KPI is taken for the cost KPI exactly when its name, lower-cased,
    has "cost" somewhere inside it; the case of the name's letters
    does not matter. *)
Theorem is_cost_kpi_iff (k : App3.kpi) :
  (App3.is_cost_kpi k = true <->
   exists pre post,
     Py.lower (App3.kpi_name k) = (pre ++ "cost" ++ post)%string) /\
  (forall k' : App3.kpi,
     Py.lower (App3.kpi_name k') = Py.lower (App3.kpi_name k) ->
     App3.is_cost_kpi k' = App3.is_cost_kpi k) /\
  Py.lower (Py.lower (App3.kpi_name k)) = Py.lower (App3.kpi_name k).
Proof.
  split; [apply contains_iff|]. split.
  - intros k' H. unfold App3.is_cost_kpi. now rewrite H.
  - induction (App3.kpi_name k) as [|c s IH]; simpl; [reflexivity|].
    now rewrite lower_ascii_idem, IH.
Qed.

(** ** Dashboard Home ([app3.py]) *)

Lemma performances_of_tools (s : App3.session_state) (tools : list App3.tool) :
  exists perfs,
    Py.comprehension
      (fun t => App3.get_performance_percentage
                  (default [] (App3.kpi_data s !! App3.id t))) tools
    = Py.Ok perfs /\
    List.length perfs = List.length tools /\
    Forall (fun p => (p <= 100)%Q) perfs.
Proof.
  induction tools as [|t tools (perfs & Hperfs & Hlen & Hall)].
  - exists []. repeat split. constructor.
  - destruct (performance_percentage_range
                (default [] (App3.kpi_data s !! App3.id t)))
      as (r & Hr & Hle & _).
    exists (r :: perfs). cbn [Py.comprehension]. rewrite Hr, Hperfs.
    split; [reflexivity|]. split; [simpl; lia | now constructor].
Qed.

Lemma fold_left_Qplus (xs : list Q) (a : Q) :
  (fold_left Qplus xs a == a + Spec.sum xs)%Q.
Proof.
  revert a. induction xs as [|x xs IH]; intros a; simpl.
  - ring.
  - rewrite IH. fold (Spec.sum xs). ring.
Qed.

Lemma fold_left_add_ge (xs : list Z) (a : Z) :
  Forall (fun x => 0 < x) xs -> a <= fold_left Z.add xs a.
Proof.
  intros H. revert a. induction H as [|x xs Hx _ IH]; intros a; simpl; [lia|].
  specialize (IH (a + x)). lia.
Qed.

(** On Dashboard Home of a session the three metrics are always drawn:
    there are at least the two sample tools, the average performance is
    computed without raising and is at most 100, and the total
    investment is at least the 40000 of the sample tools. *)
Theorem dashboard_home_metrics (actions : list App3.action) :
  let s := App3.load_sample_data (App3.session actions) in
  (2 <= App3.total_tools s)%nat /\
  (exists avg, App3.avg_performance s = Py.Ok (Some avg) /\ (avg <= 100)%Q) /\
  40000 <= App3.total_investment_sum s.
Proof.
  intros s. destruct (session_starts_with_samples actions) as (rest & Hrest).
  fold s in Hrest. split; [|split].
  - unfold App3.total_tools. rewrite Hrest, length_app. simpl. lia.
  - unfold App3.avg_performance.
    destruct (performances_of_tools s (App3.ai_tools s))
      as (perfs & Hperfs & Hlen & Hall).
    rewrite Hperfs. rewrite Hrest in Hlen |- *. cbn [app App3.sample_tools].
    destruct perfs as [|p perfs]; [discriminate|].
    eexists. split; [reflexivity|].
    apply Qle_shift_div_r.
    + rewrite <- (Zlt_Qlt 0). simpl. lia.
    + rewrite fold_left_Qplus, Qplus_0_l, (Qmult_comm 100).
      now apply sum_le.
  - unfold App3.total_investment_sum, Py.sum_int.
    rewrite Hrest, map_app, fold_left_app.
    change (fold_left Z.add (map App3.total_investment App3.sample_tools) 0)
      with 40000.
    apply fold_left_add_ge.
    pose proof (session_positive actions) as Hpos.
    unfold App3.positive_investment in Hpos. fold s in Hpos.
    rewrite Hrest in Hpos. apply Forall_app in Hpos as [_ Hpos].
    clear -Hpos. induction Hpos; constructor; assumption.
Qed.

(** ** KPI dicts ([app2.py]) *)

Lemma dict_get_set_eq {V} (k : string) (v : V) (d : App2.dict V) :
  App2.dict_get k (App2.dict_set k v d) = Some v.
Proof.
  induction d as [|[k' v'] d IH]; simpl.
  - now rewrite String.eqb_refl.
  - destruct (String.eqb k' k) eqn:E; simpl.
    + now rewrite String.eqb_refl.
    + now rewrite E.
Qed.

Lemma dict_get_set_ne {V} (k k0 : string) (v : V) (d : App2.dict V) :
  k0 <> k -> App2.dict_get k0 (App2.dict_set k v d) = App2.dict_get k0 d.
Proof.
  intros Hne. induction d as [|[k' v'] d IH]; simpl.
  - destruct (String.eqb k k0) eqn:E; [|reflexivity].
    apply String.eqb_eq in E. congruence.
  - destruct (String.eqb k' k) eqn:E; simpl.
    + apply String.eqb_eq in E. subst k'.
      destruct (String.eqb k k0) eqn:E0; [|reflexivity].
      apply String.eqb_eq in E0. congruence.
    + now rewrite IH.
Qed.

Lemma dict_set_keys_in {V} (k : string) (v : V) (d : App2.dict V) :
  In k (App2.keys d) -> App2.keys (App2.dict_set k v d) = App2.keys d.
Proof.
  unfold App2.keys. induction d as [|[k' v'] d IH]; simpl; [intros []|].
  destruct (String.eqb k' k) eqn:E; simpl.
  - apply String.eqb_eq in E. now subst k'.
  - apply String.eqb_neq in E. intros [H|H]; [contradiction|].
    now rewrite IH.
Qed.

Lemma dict_set_keys_new {V} (k : string) (v : V) (d : App2.dict V) :
  ~ In k (App2.keys d) ->
  App2.keys (App2.dict_set k v d) = App2.keys d ++ [k].
Proof.
  unfold App2.keys. induction d as [|[k' v'] d IH]; simpl; [reflexivity|].
  intros H. destruct (String.eqb k' k) eqn:E; simpl.
  - apply String.eqb_eq in E. tauto.
  - rewrite IH; [reflexivity | tauto].
Qed.

Lemma dict_set_nodup {V} (k : string) (v : V) (d : App2.dict V) :
  NoDup (App2.keys d) -> NoDup (App2.keys (App2.dict_set k v d)).
Proof.
  intros Hnd. destruct (decide (k ∈ App2.keys d)) as [H|H].
  - rewrite dict_set_keys_in; [exact Hnd | now apply list_elem_of_In].
  - rewrite dict_set_keys_new.
    + apply NoDup_app. split; [exact Hnd|]. split; [|apply NoDup_singleton].
      intros x Hx Hx'. apply list_elem_of_singleton in Hx'. now subst x.
    + intros H'. apply H. now apply list_elem_of_In.
Qed.

(** Assigning to a key of a KPI dict stores the value under that key
    and leaves every other key's value alone; a key already present
    keeps its place and no key is ever duplicated, a new key goes to
    the end. *)
Theorem dict_set_get {V} (k : string) (v : V) (d : App2.dict V) :
  App2.dict_get k (App2.dict_set k v d) = Some v /\
  (forall k0, k0 <> k ->
     App2.dict_get k0 (App2.dict_set k v d) = App2.dict_get k0 d) /\
  (In k (App2.keys d) -> App2.keys (App2.dict_set k v d) = App2.keys d) /\
  (~ In k (App2.keys d) ->
   App2.keys (App2.dict_set k v d) = App2.keys d ++ [k]) /\
  (NoDup (App2.keys d) -> NoDup (App2.keys (App2.dict_set k v d))).
Proof.
  split; [apply dict_get_set_eq|]. split; [intros k0; apply dict_get_set_ne|].
  split; [apply dict_set_keys_in|]. split; [apply dict_set_keys_new|].
  apply dict_set_nodup.
Qed.

(** ** The first KPIs of a new tool ([app2.py]) *)

(** The add form of [app2.py] stores the KPIs whose name is filled in,
    KPI 1 before KPI 2; when both carry the same name only one KPI is
    stored, with the values typed for KPI 2. *)
Theorem kpis_to_add_cases (f : App2.Form.t) :
  let n1 := App2.Form.kpi1_name f in
  let n2 := App2.Form.kpi2_name f in
  let d1 := {| App2.current := App2.Form.kpi1_current f;
               App2.target := App2.Form.kpi1_target f;
               App2.unit := App2.Form.kpi1_unit f |} in
  let d2 := {| App2.current := App2.Form.kpi2_current f;
               App2.target := App2.Form.kpi2_target f;
               App2.unit := App2.Form.kpi2_unit f |} in
  (n1 = "" -> n2 = "" -> App2.kpis_to_add f = []) /\
  (n1 <> "" -> n2 = "" -> App2.kpis_to_add f = [(n1, d1)]) /\
  (n1 = "" -> n2 <> "" -> App2.kpis_to_add f = [(n2, d2)]) /\
  (n1 <> "" -> n2 <> "" -> n1 <> n2 ->
   App2.kpis_to_add f = [(n1, d1); (n2, d2)]) /\
  (n1 <> "" -> n2 = n1 -> App2.kpis_to_add f = [(n1, d2)]).
Proof.
  intros n1 n2 d1 d2. unfold App2.kpis_to_add. fold n1 n2 d1 d2.
  repeat split.
  - intros -> ->. reflexivity.
  - intros H1 ->. now rewrite (proj2 (truthy_nonempty _) H1).
  - intros -> H2. now rewrite (proj2 (truthy_nonempty _) H2).
  - intros H1 H2 Hne.
    rewrite (proj2 (truthy_nonempty _) H1), (proj2 (truthy_nonempty _) H2).
    simpl. now rewrite (proj2 (String.eqb_neq _ _) Hne).
  - intros H1 ->.
    rewrite (proj2 (truthy_nonempty _) H1). simpl.
    now rewrite String.eqb_refl.
Qed.

(** ** Estimated ROI of the Tool Comparison ([app2.py]) *)

Lemma total_benefits_from (kpis : App2.dict App2.kpi_data) (a : Q) :
  (fold_left (fun total e =>
                if App2.is_benefit_kpi (fst e)
                then (total + App2.current (snd e) * 3)%Q else total) kpis a
   == a + 3 * Spec.sum
              (map (fun e => App2.current (snd e))
                   (List.filter (fun e => App2.is_benefit_kpi (fst e)) kpis)))%Q.
Proof.
  revert a. induction kpis as [|e kpis IH]; intros a; simpl.
  - ring.
  - rewrite IH. destruct (App2.is_benefit_kpi (fst e)); simpl.
    + fold (Spec.sum (map (fun e => App2.current (snd e))
                          (List.filter (fun e => App2.is_benefit_kpi (fst e)) kpis))).
      ring.
    + reflexivity.
Qed.

(** The estimate of [app2.py] never raises, whatever the investment: it
    is 0 for an investment of 0 (which the add form accepts), and
    otherwise counts three months of every KPI whose name contains
    "cost" or "saving", all of them and not only the first; a tool
    without such a KPI is at -100. *)
Theorem roi_est_never_raises (t : App2.tool) :
  let benefits :=
    (3 * Spec.sum (map (fun e => App2.current (snd e))
                       (List.filter (fun e => App2.is_benefit_kpi (fst e))
                                    (App2.kpis t))))%Q in
  exists r,
    App2.roi_est t = Py.Ok r /\
    (App2.investment t <= 0 -> r = 0%Q) /\
    (0 < App2.investment t ->
     (r == (benefits - inject_Z (App2.investment t))
           / inject_Z (App2.investment t) * 100)%Q) /\
    (0 < App2.investment t ->
     Forall (fun e => App2.is_benefit_kpi (fst e) = false) (App2.kpis t) ->
     (r == - (100))%Q).
Proof.
  intros benefits. unfold App2.roi_est.
  destruct (Z.ltb_spec 0 (App2.investment t)) as [H|H].
  - assert (Hq : (0 < inject_Z (App2.investment t))%Q)
      by now rewrite <- (Zlt_Qlt 0).
    rewrite (truediv_pos _ _ Hq). eexists. split; [reflexivity|].
    assert (Hb : (App2.total_benefits_est t == benefits)%Q).
    { unfold App2.total_benefits_est, benefits.
      rewrite total_benefits_from. ring. }
    split; [lia|]. split.
    + intros _. now rewrite Hb.
    + intros _ Hnone. rewrite Hb. unfold benefits.
      assert (E : List.filter (fun e => App2.is_benefit_kpi (fst e)) (App2.kpis t)
                  = []).
      { clear -Hnone. induction Hnone as [|e l He _ IH]; simpl; [reflexivity|].
        now rewrite He. }
      rewrite E. simpl. field.
      intros Hz. rewrite Hz in Hq. exact (Qlt_irrefl _ Hq).
  - exists 0%Q. split; [reflexivity|]. split; [reflexivity|].
    split; intros; lia.
Qed.

(** ** Set Targets ([app2.py]) *)

Lemma update_first_split {A} (p : A -> bool) (f : A -> A) (l : list A) (t : A) :
  List.find p l = Some t ->
  exists pre post,
    l = pre ++ t :: post /\ Forall (fun x => p x = false) pre /\
    App2.update_first p f l = pre ++ f t :: post.
Proof.
  induction l as [|x l IH]; simpl; [discriminate|].
  destruct (p x) eqn:E.
  - intros [= ->]. exists [], l. repeat split. constructor.
  - intros H. destruct (IH H) as (pre & post & -> & Hpre & ->).
    exists (x :: pre), post. repeat split. now constructor.
Qed.

Lemma update_values_keys (w : string -> Q * Q) (kpis : App2.dict App2.kpi_data) :
  App2.keys (App2.update_values w kpis) = App2.keys kpis /\
  map (fun e => App2.unit (snd e)) (App2.update_values w kpis)
  = map (fun e => App2.unit (snd e)) kpis.
Proof.
  unfold App2.keys, App2.update_values.
  induction kpis as [|[k d] kpis [IH1 IH2]]; [now split|].
  simpl. destruct (w k) as [c g]. simpl. now rewrite IH1, IH2.
Qed.

Lemma update_values_from_widgets (w : string -> Q * Q)
    (kpis : App2.dict App2.kpi_data) :
  map (fun e => (App2.current (snd e), App2.target (snd e)))
      (App2.update_values w kpis)
  = map (fun e => w (fst e)) kpis.
Proof.
  unfold App2.update_values. induction kpis as [|[k d] kpis IH]; [reflexivity|].
  simpl. destruct (w k) as [c g] eqn:E. simpl. now rewrite IH.
Qed.

(** Set Targets of [app2.py], for the name of a listed tool, never
    raises and changes one tool only, the first of that name, and of it
    only the KPI dict: the KPIs keep their names, order and units, and
    the current and target value of each become the values of the two
    inputs keyed by its name.  "Add New KPI" with the name of a
    KPI the tool already has overwrites that KPI in place and adds no
    entry; with a new name it adds the KPI at the end; without a name
    or without the button nothing is added. *)
Theorem app2_set_targets_effect (n : string) (w : string -> Q * Q)
    (button : bool) (f : App2.new_kpi_form) (s : App2.session_state)
    (t : App2.tool) :
  n <> "" ->
  Py.next (fun u => String.eqb (App2.name u) n) s = Py.Ok t ->
  let updated := App2.update_values w (App2.kpis t) in
  let new_kpi := {| App2.current := App2.new_kpi_current f;
                    App2.target := App2.new_kpi_target f;
                    App2.unit := App2.new_kpi_unit f |} in
  exists pre post kpis',
    s = pre ++ t :: post /\
    Forall (fun u => App2.name u <> n) pre /\
    App2.set_targets n w button f s
    = Py.Ok (pre ++ App2.with_kpis t kpis' :: post) /\
    App2.keys updated = App2.keys (App2.kpis t) /\
    map (fun e => App2.unit (snd e)) updated
    = map (fun e => App2.unit (snd e)) (App2.kpis t) /\
    map (fun e => (App2.current (snd e), App2.target (snd e))) updated
    = map (fun e => w (fst e)) (App2.kpis t) /\
    (button = false \/ App2.new_kpi_name f = "" -> kpis' = updated) /\
    (button = true -> App2.new_kpi_name f <> "" ->
     kpis' = App2.dict_set (App2.new_kpi_name f) new_kpi updated /\
     (In (App2.new_kpi_name f) (App2.keys (App2.kpis t)) ->
      App2.keys kpis' = App2.keys (App2.kpis t)) /\
     (~ In (App2.new_kpi_name f) (App2.keys (App2.kpis t)) ->
      App2.keys kpis' = App2.keys (App2.kpis t) ++ [App2.new_kpi_name f])).
Proof.
  intros Hn Hsel updated new_kpi.
  destruct (update_values_keys w (App2.kpis t)) as [Hkeys Hunits].
  fold updated in Hkeys, Hunits.
  unfold Py.next in Hsel.
  destruct (List.find _ s) as [t'|] eqn:Hfind; [|discriminate].
  injection Hsel as ->.
  set (kpis' := if button && Py.truthy (App2.new_kpi_name f)
                then App2.dict_set (App2.new_kpi_name f) new_kpi updated
                else updated).
  destruct (update_first_split _ (fun u => App2.with_kpis u kpis') s t Hfind)
    as (pre & post & Hs & Hpre & Hupd).
  exists pre, post, kpis'. split; [exact Hs|]. split.
  { eapply Forall_impl; [exact Hpre|]. intros u Hu. simpl in Hu.
    now apply String.eqb_neq. }
  split.
  { unfold App2.set_targets. destruct s as [|t0 s0].
    { destruct pre; discriminate. }
    rewrite (proj2 (truthy_nonempty _) Hn). unfold Py.next.
    rewrite Hfind.
    cbv beta iota zeta delta [mbind mret result_bind result_ret Py.bind].
    fold updated new_kpi kpis'. now rewrite Hupd. }
  split; [exact Hkeys|]. split; [exact Hunits|].
  split; [apply update_values_from_widgets|]. split.
  - intros [->|Hf]; unfold kpis'; [reflexivity|].
    rewrite Hf. now rewrite andb_false_r.
  - intros -> Hf. unfold kpis'.
    rewrite (proj2 (truthy_nonempty _) Hf). simpl.
    split; [reflexivity|]. rewrite <- Hkeys. split.
    + apply dict_set_keys_in.
    + apply dict_set_keys_new.
Qed.

Lemma app2_set_targets_effect_witness :
  let w := fun _ : string => (50%Q, 100%Q) in
  let f := {| App2.new_kpi_name := "Cost Avoided"; App2.new_kpi_current := 1;
              App2.new_kpi_target := 2; App2.new_kpi_unit := "$" |} in
  exists t pre post kpis',
    Py.next (fun u => String.eqb (App2.name u) "Risk Predictor")
            App2.sample_tools = Py.Ok t /\
    App2.set_targets "Risk Predictor" w true f App2.sample_tools
    = Py.Ok (pre ++ App2.with_kpis t kpis' :: post) /\
    App2.keys kpis' = App2.keys (App2.kpis t).
Proof.
  intros w f.
  destruct (Py.next (fun u => String.eqb (App2.name u) "Risk Predictor")
              App2.sample_tools) as [t|e] eqn:Hsel; [|discriminate].
  assert (Hn : "Risk Predictor" <> "") by discriminate.
  destruct (app2_set_targets_effect "Risk Predictor" w true f
              App2.sample_tools t Hn Hsel)
    as (pre & post & kpis' & _ & _ & Hset & _ & _ & _ & _ & Hadd).
  destruct (Hadd eq_refl) as (_ & Hin & _); [discriminate|].
  exists t, pre, post, kpis'. split; [reflexivity|]. split; [exact Hset|].
  apply Hin. injection Hsel as <-. right; right; right; left; reflexivity.
Defined.

(** ** Selecting a tool ([app3.py]) *)

Lemma find_none_iff {A} (p : A -> bool) (l : list A) :
  List.find p l = None <-> Forall (fun x => p x = false) l.
Proof.
  split; [|apply find_none].
  induction l as [|x l IH]; simpl; [constructor|].
  destruct (p x) eqn:E; [discriminate|]. intros H. constructor; auto.
Qed.

(** The pages select a tool with [next] and no default.  For the name
    of any listed tool, which is all the select box offers, this never
    raises and yields a listed tool of that name; it raises
    [StopIteration] exactly for a name that no listed tool has. *)
Theorem select_tool_listed (s : App3.session_state) (n : string) :
  (forall t, In t (App3.ai_tools s) -> App3.name t = n ->
     exists t', App3.select_tool n s = Py.Ok t' /\
                In t' (App3.ai_tools s) /\ App3.name t' = n) /\
  (App3.select_tool n s = Py.Raise Py.StopIteration <->
   Forall (fun t => App3.name t <> n) (App3.ai_tools s)).
Proof.
  unfold App3.select_tool, Py.next. split.
  - intros t Ht Hn.
    destruct (List.find _ _) as [t'|] eqn:E.
    + exists t'. split; [reflexivity|].
      apply List.find_some in E as [Hin Hn'].
      split; [exact Hin | now apply String.eqb_eq].
    + exfalso. apply (List.find_none _ _ E) in Ht.
      rewrite Hn, String.eqb_refl in Ht. discriminate.
  - destruct (List.find _ _) as [t'|] eqn:E.
    + split; [discriminate|]. intros H.
      apply List.find_some in E as [Hin Hn'].
      rewrite Forall_forall in H. apply list_elem_of_In in Hin.
      apply H in Hin. now apply String.eqb_eq in Hn'.
    + split; [|reflexivity]. intros _.
      apply find_none_iff in E. eapply Forall_impl; [exact E|].
      intros t Ht. now apply String.eqb_neq.
Qed.

(** ** The Simple ROI Calculator of [app3.py] *)

(** The calculator raises exactly when the total cost entered is 0.
    For any other total cost, negative ones included (the input has no
    lower bound), it returns the ROI formula on the months in use; in
    particular it never raises when the total cost is left at the
    selected tool's investment in a session. *)
Theorem simple_roi_calculator_raises_iff
    (total_cost monthly_savings : Q) (now : Z) (t : App3.tool) :
  let months :=
    Py.max2 1 (inject_Z (now - App3.implementation_date t) / 30)%Q in
  (App3.simple_roi_calculator total_cost monthly_savings now t
   = Py.Raise Py.ZeroDivisionError <-> (total_cost == 0)%Q) /\
  (~ (total_cost == 0)%Q ->
   App3.simple_roi_calculator total_cost monthly_savings now t
   = Py.Ok ((monthly_savings * months - total_cost) / total_cost * 100)%Q) /\
  (forall actions,
     In t (App3.ai_tools (App3.load_sample_data (App3.session actions))) ->
     exists r,
       App3.simple_roi_calculator (inject_Z (App3.total_investment t))
         monthly_savings now t = Py.Ok r).
Proof.
  intros months. unfold App3.simple_roi_calculator.
  rewrite months_in_use_ok. simpl. fold months. split; [|split].
  - split.
    + intros H. destruct (Qeq_dec total_cost 0) as [E|E]; [exact E|].
      rewrite (app3_simple_roi_nonzero _ _ _ E) in H. discriminate.
    + apply app3_simple_roi_zero.
  - apply app3_simple_roi_nonzero.
  - intros actions Hin. rewrite app3_simple_roi_nonzero; [now eexists|].
    apply inject_Z_nonzero.
    pose proof (session_positive actions) as H.
    unfold App3.positive_investment in H. rewrite Forall_forall in H.
    apply list_elem_of_In, H in Hin. lia.
Qed.

(** * View Recommendations on floats *)

Import Floats.

(** ** Float comparisons and division *)




Lemma float_0 : FloatOps.Prim2SF 0%float = SpecFloat.S754_zero false.
Proof. vm_compute. reflexivity. Qed.


(** A float above 0 is not a zero. *)
Lemma above_0_nonzero (t : PrimFloat.float) :
  PrimFloat.ltb 0%float t = true -> PrimFloat.eqb t 0%float = false.
Proof.
  rewrite FloatAxioms.ltb_spec, FloatAxioms.eqb_spec, float_0.
  destruct (FloatOps.Prim2SF t) as [s|s| |s m e];
    try discriminate; try reflexivity; destruct s; try discriminate; reflexivity.
Qed.

Lemma float_truediv_nonzero (x y : PrimFloat.float) :
  PrimFloat.eqb y 0%float = false ->
  PyFloat.truediv x y = Py.Ok (PrimFloat.div x y).
Proof. intros H. unfold PyFloat.truediv. now rewrite H. Qed.

(** ** [app2.py] *)

Lemma app2f_performance_ratio (d : App2F.kpi_data) :
  App2F.performance d = Py.Ok (App2F.ratio d).
Proof.
  unfold App2F.performance, App2F.ratio.
  destruct (PrimFloat.eqb (App2F.target d) 0%float) eqn:E; simpl; [reflexivity|].
  now rewrite (float_truediv_nonzero _ _ E).
Qed.

Lemma app2f_check_kpi_cases (t : App2F.tool) (e : string * App2F.kpi_data)
    (recs : list App2.recommendation) :
  App2F.check_kpi t e recs = Py.Ok (recs ++ App2F.recommended t e).
Proof.
  destruct e as [n d]. unfold App2F.check_kpi, App2F.recommended.
  rewrite app2f_performance_ratio. simpl.
  destruct (PrimFloat.ltb (App2F.ratio d) 80%float); [reflexivity|].
  destruct (PrimFloat.ltb 120%float (App2F.ratio d)); [reflexivity|].
  now rewrite app_nil_r.
Qed.

Lemma app2f_recommendations_flat (s : App2F.session_state) :
  App2F.recommendations s
  = Py.Ok (flat_map (fun t => flat_map (App2F.recommended t) (App2F.kpis t)) s).
Proof.
  unfold App2F.recommendations.
  rewrite (for_each_flat_map _
             (fun t => flat_map (App2F.recommended t) (App2F.kpis t)));
    [reflexivity|].
  intros t acc _. unfold App2F.check_tool.
  apply for_each_flat_map. intros e a _. apply app2f_check_kpi_cases.
Qed.


(** ** [app3.py] *)

Lemma app3f_check_kpi_cases (t : App3.tool) (k : App3F.kpi)
    (acc : list App3F.item) :
  App3F.check_kpi t k acc = Py.Ok (acc ++ App3F.listed t k).
Proof.
  unfold App3F.check_kpi, App3F.listed.
  destruct (PrimFloat.ltb 0%float (App3F.target k)) eqn:E; simpl.
  - rewrite (float_truediv_nonzero _ _ (above_0_nonzero _ E)). simpl.
    destruct (PrimFloat.ltb _ 80%float); [reflexivity | now rewrite app_nil_r].
  - now rewrite app_nil_r.
Qed.

Lemma app3f_underperforming_flat (s : App3F.session_state) :
  App3F.underperforming_tools s
  = Py.Ok (flat_map (App3F.listed_of_tool s) (App3F.ai_tools s)).
Proof.
  unfold App3F.underperforming_tools.
  rewrite (for_each_flat_map _ (App3F.listed_of_tool s)); [reflexivity|].
  intros t acc _. unfold App3F.check_tool, App3F.listed_of_tool.
  destruct (App3F.kpi_data s !! App3.id t) as [kpis|];
    [|now rewrite app_nil_r].
  apply for_each_flat_map. intros k a _. apply app3f_check_kpi_cases.
Qed.



(** ** Exceeding the target *)




(** ** Falling short of the target *)




(** ** The two lists as comprehensions *)

(** The list of View Recommendations of [app3.py] holds, tool by tool
    in list order and KPI by KPI in append order, one item for each KPI
    with a target above 0 whose computed ratio compares below 80.  It
    is empty, and the page then reports that all KPIs meet their
    targets, exactly when no such KPI exists; KPIs without a target
    above 0 never count. *)
Theorem underperforming_tools_listing (s : App3F.session_state) :
  App3F.underperforming_tools s
  = Py.Ok (flat_map (App3F.listed_of_tool s) (App3F.ai_tools s)) /\
  (App3F.underperforming_tools s = Py.Ok [] <->
   forall t kpis k,
     In t (App3F.ai_tools s) -> App3F.kpi_data s !! App3.id t = Some kpis ->
     In k kpis -> PrimFloat.ltb 0%float (App3F.target k) = true ->
     PrimFloat.ltb (App3F.current k / App3F.target k * 100)%float 80%float
     = false).
Proof.
  split; [apply app3f_underperforming_flat|].
  rewrite app3f_underperforming_flat. split.
  - intros [= H] t kpis k Ht Hk Hin Htgt.
    rewrite flat_map_nil_iff in H. specialize (H t Ht).
    unfold App3F.listed_of_tool in H. rewrite Hk in H.
    rewrite flat_map_nil_iff in H. specialize (H k Hin).
    unfold App3F.listed in H. rewrite Htgt in H. simpl in H.
    destruct (PrimFloat.ltb _ 80%float); [discriminate | reflexivity].
  - intros H. f_equal. apply flat_map_nil_iff. intros t Ht.
    unfold App3F.listed_of_tool.
    destruct (App3F.kpi_data s !! App3.id t) as [kpis|] eqn:Hk; [|reflexivity].
    apply flat_map_nil_iff. intros k Hin. unfold App3F.listed.
    destruct (PrimFloat.ltb 0%float (App3F.target k)) eqn:E; [|reflexivity].
    now rewrite (H t kpis k Ht Hk Hin E).
Qed.

(** The recommendations of [app2.py] are computed without raising,
    tool by tool and KPI by KPI in dict order, at most one per KPI.
    The list is empty exactly when no KPI's computed ratio compares
    below 80 or above 120.  The page shows the first three entries of
    the list, all of it when it has fewer, and no other. *)
Theorem recommendations_listing (s : App2F.session_state) :
  App2F.recommendations s
  = Py.Ok (flat_map (fun t => flat_map (App2F.recommended t) (App2F.kpis t)) s) /\
  (forall t e, (List.length (App2F.recommended t e) <= 1)%nat) /\
  (App2F.recommendations s = Py.Ok [] <->
   forall t e, In t s -> In e (App2F.kpis t) ->
     PrimFloat.ltb (App2F.ratio (snd e)) 80%float = false /\
     PrimFloat.ltb 120%float (App2F.ratio (snd e)) = false) /\
  (forall recs,
     App2F.recommendations s = Py.Ok recs ->
     List.length (App2F.shown recs) = Nat.min 3 (List.length recs) /\
     forall i, (i < 3)%nat -> App2F.shown recs !! i = recs !! i).
Proof.
  split; [apply app2f_recommendations_flat|]. split; [|split].
  - intros t e. unfold App2F.recommended.
    destruct (PrimFloat.ltb _ 80%float); [simpl; lia|].
    destruct (PrimFloat.ltb 120%float _); simpl; lia.
  - rewrite app2f_recommendations_flat. split.
    + intros [= H] t e Ht He.
      rewrite flat_map_nil_iff in H. specialize (H t Ht).
      rewrite flat_map_nil_iff in H. specialize (H e He).
      unfold App2F.recommended in H.
      destruct (PrimFloat.ltb _ 80%float); [discriminate|].
      destruct (PrimFloat.ltb 120%float _); [discriminate|]. now split.
    + intros H. f_equal. apply flat_map_nil_iff. intros t Ht.
      apply flat_map_nil_iff. intros e He.
      destruct (H t e Ht He) as [H1 H2].
      unfold App2F.recommended. now rewrite H1, H2.
  - intros recs _. unfold App2F.shown. split.
    + apply length_take.
    + intros i Hi. now apply lookup_take_lt.
Qed.

(** ** The thresholds at inputs where rounding decides *)

Set Warnings "-inexact-float".

(** 49/40 gives 122.50000000000001, beyond the tie at 22.5. *)
Example excess_49_of_40 :
  PyFloat.format_0f (49 / 40 * 100 - 100)%float = "23".
Proof. vm_compute. reflexivity. Qed.

(** 23/40 gives 57.49999999999999, so the shortfall is above 42.5. *)
Example shortfall_23_of_40 :
  PyFloat.format_0f (100 - 23 / 40 * 100)%float = "43".
Proof. vm_compute. reflexivity. Qed.

(** 1.2/1.5 gives exactly 80.0 and is not listed; 4.52/5.65 gives
    79.99999999999999 and is. *)
Example listed_at_the_threshold (t : App3.tool) :
  App3F.listed t {| App3F.kpi_name := "A"; App3F.current := 1.2;
                    App3F.target := 1.5; App3F.unit := "" |} = [] /\
  List.length
    (App3F.listed t {| App3F.kpi_name := "B"; App3F.current := 4.52;
                       App3F.target := 5.65; App3F.unit := "" |}) = 1%nat.
Proof.
  unfold App3F.listed. cbn [App3F.current App3F.target]. split.
  - replace (PrimFloat.ltb (1.2 / 1.5 * 100) 80)%float with false
      by (vm_compute; reflexivity).
    now rewrite andb_false_r.
  - replace (PrimFloat.ltb 0 5.65)%float with true by (vm_compute; reflexivity).
    replace (PrimFloat.ltb (4.52 / 5.65 * 100) 80)%float with true
      by (vm_compute; reflexivity).
    reflexivity.
Qed.

(** 5.4/4.5 gives 120.00000000000001, which is above 120. *)
Example exceeding_at_the_threshold (t : App2F.tool) :
  List.length
    (App2F.recommended t ("A", {| App2F.current := 5.4; App2F.target := 4.5;
                                  App2F.unit := "" |})) = 1%nat.
Proof.
  unfold App2F.recommended, App2F.ratio. cbn [snd App2F.current App2F.target].
  replace (PrimFloat.eqb 4.5 0)%float with false by (vm_compute; reflexivity).
  replace (PrimFloat.ltb (5.4 / 4.5 * 100) 80)%float with false
    by (vm_compute; reflexivity).
  replace (PrimFloat.ltb 120 (5.4 / 4.5 * 100))%float with true
    by (vm_compute; reflexivity).
  reflexivity.
Qed.
